(** * The blog API of mern-blog-master (api/index.js), as a Rocq model

    The Express handlers of [api/index.js] are embedded as functions in a
    small state-and-exception monad over a [World] made of the two document
    collections (users, posts) and the upload directory on disk.  What the
    handlers delegate to libraries (bcrypt, jsonwebtoken, the ObjectId cast
    of the document store) is taken as a variable of the section, so that
    every statement holds for any implementation of them. *)

From Stdlib Require Import String Ascii List NArith ZArith Lia Sorted Permutation.
From stdpp Require Import base strings gmap list.

Local Open Scope string_scope.
Local Open Scope N_scope.

(** ** Strings as JavaScript uses them *)

Module Js.

(** The double quote character (code 34). *)
Definition dquote : ascii := "034"%char.
(** The backslash character (code 92). *)
Definition backslash : ascii := "092"%char.

(** [s.split(sep)] for a one-character separator: never empty, the pieces
    between the separators in order. *)
Fixpoint split (sep : ascii) (s : string) : list string :=
  match s with
  | EmptyString => [EmptyString]
  | String c r =>
      if Ascii.eqb c sep then EmptyString :: split sep r
      else match split sep r with
           | [] => [String c EmptyString]
           | h :: t => String c h :: t
           end
  end.

(** [a[i]] read as a string operand: [undefined] prints as "undefined"
    when it is concatenated. *)
Definition index_str (a : list string) (i : Z) : string :=
  if (i <? 0)%Z then "undefined"
  else match nth_error a (Z.to_nat i) with
       | Some x => x
       | None => "undefined"
       end.

(** Truthiness of a string value: only the empty string is falsy. *)
Definition truthy (s : string) : bool :=
  match s with EmptyString => false | String _ _ => true end.

(** Truthiness of a value that is [null]/[undefined] or a string. *)
Definition truthy_opt (o : option string) : bool :=
  match o with None => false | Some s => truthy s end.

(** Lower-case hexadecimal digit of a number below 16. *)
Definition hex_digit (n : N) : ascii :=
  match n with
  | 0 => "0" | 1 => "1" | 2 => "2" | 3 => "3" | 4 => "4" | 5 => "5"
  | 6 => "6" | 7 => "7" | 8 => "8" | 9 => "9" | 10 => "a" | 11 => "b"
  | 12 => "c" | 13 => "d" | 14 => "e" | _ => "f"
  end%char.

(** QuoteJSONString, one code unit: the short escapes, [\u00xx] for the
    other control characters, the character itself otherwise. *)
Definition json_escape (c : ascii) : string :=
  match N_of_ascii c with
  | 8 => String backslash "b"
  | 9 => String backslash "t"
  | 10 => String backslash "n"
  | 12 => String backslash "f"
  | 13 => String backslash "r"
  | 34 => String backslash (String dquote EmptyString)
  | 92 => String backslash (String backslash EmptyString)
  | n =>
      if n <? 32
      then String backslash
             (String "u" (String "0" (String "0"
               (String (hex_digit (n / 16))
                 (String (hex_digit (n mod 16)) EmptyString)))))
      else String c EmptyString
  end.

Fixpoint json_escape_all (s : string) : string :=
  match s with
  | EmptyString => EmptyString
  | String c r => json_escape c +:+ json_escape_all r
  end.

(** [JSON.stringify(s)] of a string value (an ObjectId serialises
    through its [toJSON], the hexadecimal string). *)
Definition JSON_stringify (s : string) : string :=
  String dquote (json_escape_all s +:+ String dquote EmptyString).

(** Reading the escapes back; used only to show that [JSON_stringify]
    loses nothing. *)
Definition hex_value (c : ascii) : N :=
  let n := N_of_ascii c in
  if n <? 58 then n - 48 else n - 87.

Fixpoint json_unescape (s : string) : string :=
  match s with
  | EmptyString => EmptyString
  | String c r =>
      if Ascii.eqb c backslash then
        match r with
        | EmptyString => EmptyString
        | String d r1 =>
            if Ascii.eqb d "u" then
              match r1 with
              | String _ (String _ (String h (String l r2))) =>
                  String (ascii_of_N (16 * hex_value h + hex_value l))
                         (json_unescape r2)
              | _ => EmptyString
              end
            else
              String (if Ascii.eqb d "b" then "008"
                      else if Ascii.eqb d "t" then "009"
                      else if Ascii.eqb d "n" then "010"
                      else if Ascii.eqb d "f" then "012"
                      else if Ascii.eqb d "r" then "013"
                      else d)%char
                     (json_unescape r1)
        end
      else String c (json_unescape r)
  end.

End Js.

(** Whether [sep] occurs in [s]. *)
Fixpoint contains_char (sep : ascii) (s : string) : bool :=
  match s with
  | EmptyString => false
  | String c r => Ascii.eqb c sep || contains_char sep r
  end.

(** ** Data model *)

(** A document id, kept as the hexadecimal string it serialises to. *)
Definition ObjectId := string.

(** Modelled from the spec: the User schema ([api/models/User.js] is not
    among the sources): a user has a unique username and a hashed
    password; [u_id] is the [_id] the store gives every document. *)
Record User := mkUser {
  u_id : ObjectId;
  username : string;
  password : string
}.

(** Modelled from the spec: the Post schema ([api/models/Post.js] is not
    among the sources): title, summary, content, cover-file path, author
    reference (the owning user's id) and creation timestamp; [p_id] is the
    document's [_id]. *)
Record Post := mkPost {
  p_id : ObjectId;
  title : string;
  summary : string;
  content : string;
  cover : string;
  author : ObjectId;
  createdAt : N
}.

(** The result of [populate('author', ['username'])]: the referenced user
    reduced to its id and username, [None] (null) when no user has the id. *)
Record AuthorRef := mkAuthorRef {
  ref_id : ObjectId;
  ref_username : string
}.

Record Populated := mkPopulated {
  doc : Post;
  author_doc : option AuthorRef
}.

(** The payload of the session token: [{username, id}]. *)
Record Claims := mkClaims {
  c_username : string;
  c_id : string
}.

(** The state the handlers act on: the two collections in their natural
    (insertion) order and the files on disk, path to contents. *)
Record World := mkWorld {
  users : list User;
  posts : list Post;
  disk : gmap string string
}.

(** ** Requests and responses *)

(** The multipart part named [file], as the client sends it. *)
Record Upload := mkUpload {
  up_originalname : string;
  up_data : string
}.

(** [req.file] once the upload middleware has stored the part. *)
Record File := mkFile {
  originalname : string;
  path : string
}.

(** What the handlers read of a request: the [token] cookie, the body
    fields (strings, as the JSON and multipart parsers deliver them), the
    [:id] route parameter and the uploaded part. *)
Record Request := mkRequest {
  cookie_token : option string;
  body_username : string;
  body_password : string;
  body_id : string;
  body_title : string;
  body_summary : string;
  body_content : string;
  params_id : string;
  upload : option Upload
}.

(** What the runtime draws while it serves one request: the clock, the
    ObjectId generated for a new document, and the random file name the
    upload middleware picks. *)
Record Env := mkEnv {
  now : N;
  new_oid : ObjectId;
  random_name : string
}.

Inductive Exn :=
| DuplicateKey      (* E11000, a unique index rejects the document *)
| CastError         (* the value is no ObjectId *)
| ENOENT.           (* no such file *)

Inductive Json :=
| JStr (s : string)                          (* a bare string *)
| JError (s : string)                        (* { error: s } *)
| JExn (e : Exn)                             (* a caught exception *)
| JUser (u : User)
| JIdentity (id : ObjectId) (name : string)  (* { id, username } *)
| JClaims (c : Claims)
| JPost (p : Post)
| JPopulated (p : Populated)
| JPosts (l : list Populated)
| JSuccess.                                  (* { success: true } *)

Record Cookie := mkCookie {
  ck_name : string;
  ck_value : string;
  httpOnly : bool;
  secure : bool;
  sameSite : string
}.

Record Response := mkResponse {
  status : nat;
  body : Json;
  set_cookie : list Cookie
}.

(** [res.status(st).json(b)] and [res.json(b)]. *)
Definition res_status_json (st : nat) (b : Json) : Response :=
  {| status := st; body := b; set_cookie := [] |}.

Definition res_json (b : Json) : Response := res_status_json 200 b.

(** ** State and exceptions *)

Inductive Res (A : Type) :=
| Ok (a : A)
| Throw (e : Exn).
Arguments Ok {A} a.
Arguments Throw {A} e.

Definition M (A : Type) : Type := World -> Res A * World.

Definition ret {A} (a : A) : M A := fun w => (Ok a, w).

Definition throw {A} (e : Exn) : M A := fun w => (Throw e, w).

Definition bind {A B} (m : M A) (k : A -> M B) : M B :=
  fun w =>
    match m w with
    | (Ok a, w') => k a w'
    | (Throw e, w') => (Throw e, w')
    end.

(** [try { m } catch (e) { h e }]: what [m] did to the state stays. *)
Definition try_catch {A} (m : M A) (h : Exn -> M A) : M A :=
  fun w =>
    match m w with
    | (Ok a, w') => (Ok a, w')
    | (Throw e, w') => h e w'
    end.

Declare Scope handler_scope.
Delimit Scope handler_scope with handler.
Notation "x <- m ;; k" := (bind m (fun x => k))
  (at level 100, m at next level, right associativity) : handler_scope.
Notation "m ;; k" := (bind m (fun _ => k))
  (at level 100, right associativity) : handler_scope.
Local Open Scope handler_scope.

(** ** The file system calls *)

Module fs.

Definition existsSync (p : string) : M bool :=
  fun w => (Ok (bool_decide (is_Some (disk w !! p))), w).

Definition writeFile (p data : string) : M unit :=
  fun w => (Ok tt, {| users := users w; posts := posts w;
                      disk := <[p := data]> (disk w) |}).

Definition renameSync (oldp newp : string) : M unit :=
  fun w =>
    match disk w !! oldp with
    | Some data =>
        (Ok tt, {| users := users w; posts := posts w;
                   disk := <[newp := data]> (delete oldp (disk w)) |})
    | None => (Throw ENOENT, w)
    end.

Definition unlinkSync (p : string) : M unit :=
  fun w =>
    match disk w !! p with
    | Some _ =>
        (Ok tt, {| users := users w; posts := posts w;
                   disk := delete p (disk w) |})
    | None => (Throw ENOENT, w)
    end.

End fs.

(** ** Sorting and limiting a query result *)

(** [x] may stand before [y] under [sort({key: dir})]: descending for a
    negative direction, ascending otherwise. *)
Definition sort_leb {A} (key : A -> N) (dir : Z) (x y : A) : bool :=
  if (dir <? 0)%Z then key y <=? key x else key x <=? key y.

Fixpoint sort_insert {A} (key : A -> N) (dir : Z) (x : A) (l : list A) : list A :=
  match l with
  | [] => [x]
  | y :: l' =>
      if sort_leb key dir x y then x :: y :: l'
      else y :: sort_insert key dir x l'
  end.

(** The store's sort; documents with equal keys keep their natural order. *)
Fixpoint sort_by {A} (key : A -> N) (dir : Z) (l : list A) : list A :=
  match l with
  | [] => []
  | x :: l' => sort_insert key dir x (sort_by key dir l')
  end.

Definition limit {A} (n : nat) (l : list A) : list A := firstn n l.

(** ** The header of the web client *)

Module Header.

(** What the header renders: a router link or the logout anchor. *)
Inductive Element :=
| Link (to text : string)
| Anchor (text : string).

(** [userInfo?.username]: the [username] field of the user info, when
    the user info is an object that has one. *)
Definition username_of (userInfo : option Json) : option string :=
  match userInfo with
  | Some (JClaims c) => Some (c_username c)
  | Some (JIdentity _ name) => Some name
  | Some (JUser u) => Some (username u)
  | _ => None
  end.

(** The children of [<nav>]: the two fragments, each rendered only when
    its guard is truthy. *)
Definition nav (userInfo : option Json) : list Element :=
  let username := username_of userInfo in
  ((if Js.truthy_opt username
    then [Link "/create" "Create new post";
          Anchor ("Logout (" +:+ default EmptyString username +:+ ")")]
    else [])
   ++
   (if negb (Js.truthy_opt username)
    then [Link "/login" "Login"; Link "/register" "Register"]
    else []))%list.

(** The effect run on mount: the parsed body of the profile answer,
    whatever its status, becomes the user info. *)
Definition onMount (profile : Response) : option Json := Some (body profile).

(** [logout()]: after the request is sent the user info is [null]. *)
Definition logout : option Json := None.

End Header.

(** ** A small instance to run the handlers on *)

Module Demo.

Definition salt : string := "na".
Definition secret : string := "s3cret".

(** Stand-ins for bcrypt: the hash is the salt, a dollar sign and the
    password. *)
Definition hashSync (pw slt : string) : string := slt +:+ "$" +:+ pw.

Definition compareSync (pw hash : string) : bool :=
  String.eqb hash (salt +:+ "$" +:+ pw).

(** Stand-ins for jsonwebtoken: the token is the secret, the id and the
    username separated by dots. *)
Definition sign (c : Claims) (sec : string) : string :=
  sec +:+ "." +:+ c_id c +:+ "." +:+ c_username c.

Definition verify (token sec : string) : option Claims :=
  match Js.split "." token with
  | [s; id; name] =>
      if String.eqb s sec then Some {| c_username := name; c_id := id |}
      else None
  | _ => None
  end.

Definition is_hex (c : ascii) : bool :=
  let n := N_of_ascii c in
  ((48 <=? n) && (n <=? 57)) || ((97 <=? n) && (n <=? 102)).

(** The ObjectId cast: 24 hexadecimal digits. *)
Definition cast (s : string) : option ObjectId :=
  if Nat.eqb (String.length s) 24
     && forallb is_hex (list_ascii_of_string s)
  then Some s else None.

Definition alice_id : ObjectId := "64b7f0c2a1d3e4f5a6b7c8d1".
Definition bob_id : ObjectId := "64b7f0c2a1d3e4f5a6b7c8d2".
Definition post1_id : ObjectId := "64b7f0c2a1d3e4f5a6b7c8e1".
Definition post2_id : ObjectId := "64b7f0c2a1d3e4f5a6b7c8e2".

Definition alice : User :=
  {| u_id := alice_id; username := "alice";
     password := hashSync "wonderland" salt |}.

Definition bob : User :=
  {| u_id := bob_id; username := "bob"; password := hashSync "builder" salt |}.

Definition post1 : Post :=
  {| p_id := post1_id; title := "Hello"; summary := "A first post";
     content := "<p>Hello, world</p>"; cover := "uploads/0a1b2c.png";
     author := alice_id; createdAt := 1700000000000 |}.

Definition post2 : Post :=
  {| p_id := post2_id; title := "Again"; summary := "A second post";
     content := "<p>More</p>"; cover := "uploads/3d4e5f.jpg";
     author := bob_id; createdAt := 1700000300000 |}.

Definition world : World :=
  {| users := [alice; bob];
     posts := [post1; post2];
     disk := <["uploads/0a1b2c.png" := "PNG"]>
               (<["uploads/3d4e5f.jpg" := "JPG"]> ∅) |}.

Definition empty_world : World := {| users := []; posts := []; disk := ∅ |}.

Definition env : Env :=
  {| now := 1700000500000;
     new_oid := "64b7f0c2a1d3e4f5a6b7c8e3";
     random_name := "77aa88bb" |}.

Definition alice_token : string :=
  sign {| c_username := "alice"; c_id := alice_id |} secret.

Definition bob_token : string :=
  sign {| c_username := "bob"; c_id := bob_id |} secret.

(** A request with every field empty, to build the others from. *)
Definition blank : Request :=
  {| cookie_token := None;
     body_username := ""; body_password := "";
     body_id := ""; body_title := ""; body_summary := ""; body_content := "";
     params_id := ""; upload := None |}.

(** Bob tries to edit, and to delete, Alice's post. *)
Definition bob_on_post1 : Request :=
  {| cookie_token := Some bob_token;
     body_username := ""; body_password := "";
     body_id := post1_id; body_title := "Mine now"; body_summary := "taken";
     body_content := "<p>bob was here</p>";
     params_id := post1_id; upload := None |}.

(** Alice edits her post and uploads a new cover named [README]. *)
Definition alice_on_post1 : Request :=
  {| cookie_token := Some alice_token;
     body_username := ""; body_password := "";
     body_id := post1_id; body_title := "Hello again";
     body_summary := "Edited"; body_content := "<p>Edited</p>";
     params_id := post1_id;
     upload := Some {| up_originalname := "README"; up_data := "TEXT" |} |}.

(** Alice edits her post without a new cover. *)
Definition alice_edit_text : Request :=
  {| cookie_token := Some alice_token;
     body_username := ""; body_password := "";
     body_id := post1_id; body_title := "Hello again";
     body_summary := "Edited"; body_content := "<p>Edited</p>";
     params_id := post1_id; upload := None |}.

(** A create request whose cookie is not a token the server signed. *)
Definition forged_create : Request :=
  {| cookie_token := Some "forged";
     body_username := ""; body_password := "";
     body_id := ""; body_title := "Spam"; body_summary := "spam";
     body_content := "<p>spam</p>";
     params_id := "";
     upload := Some {| up_originalname := "spam.png"; up_data := "PNG" |} |}.

Definition carol_registers : Request :=
  {| cookie_token := None;
     body_username := "carol"; body_password := "looking-glass";
     body_id := ""; body_title := ""; body_summary := ""; body_content := "";
     params_id := ""; upload := None |}.

Definition alice_wrong_password : Request :=
  {| cookie_token := None;
     body_username := "alice"; body_password := "guess";
     body_id := ""; body_title := ""; body_summary := ""; body_content := "";
     params_id := ""; upload := None |}.

(** Bob logs in. *)
Definition bob_login : Request :=
  {| cookie_token := None;
     body_username := "bob"; body_password := "builder";
     body_id := ""; body_title := ""; body_summary := ""; body_content := "";
     params_id := ""; upload := None |}.

(** Bob creates a post with a cover named [photo.final.jpg]. *)
Definition bob_creates : Request :=
  {| cookie_token := Some bob_token;
     body_username := ""; body_password := "";
     body_id := ""; body_title := "Third"; body_summary := "3";
     body_content := "<p>3</p>"; params_id := "";
     upload := Some {| up_originalname := "photo.final.jpg";
                       up_data := "JPG" |} |}.

(** Bob tries to edit Alice's post and uploads a cover with it. *)
Definition bob_uploads_on_post1 : Request :=
  {| cookie_token := Some bob_token;
     body_username := ""; body_password := "";
     body_id := post1_id; body_title := "Mine now"; body_summary := "taken";
     body_content := "<p>bob was here</p>";
     params_id := post1_id;
     upload := Some {| up_originalname := "bob.gif"; up_data := "GIF" |} |}.

(** A read of the post the create under [env] stores. *)
Definition read_new_post : Request :=
  {| cookie_token := None;
     body_username := ""; body_password := "";
     body_id := ""; body_title := ""; body_summary := ""; body_content := "";
     params_id := "64b7f0c2a1d3e4f5a6b7c8e3"; upload := None |}.

(** A request that carries the cookie a logout has reset. *)
Definition after_logout : Request :=
  {| cookie_token := Some "";
     body_username := ""; body_password := "";
     body_id := post1_id; body_title := ""; body_summary := "";
     body_content := ""; params_id := post1_id; upload := None |}.

End Demo.

(** ** The handlers *)

Section Api.

(** [bcrypt.genSaltSync(10)], drawn once when the server starts. *)
Variable salt : string.
(** [process.env.JWT_SECRET]. *)
Variable secret : string.
(** [process.env.NODE_ENV === 'production']. *)
Variable production : bool.
Variable bcrypt_hashSync : string -> string -> string.
Variable bcrypt_compareSync : string -> string -> bool.
(** [jwt.sign(payload, secret)] and [jwt.verify(token, secret)]; [None]
    is the [err] of the callback. *)
Variable jwt_sign : Claims -> string -> string.
Variable jwt_verify : string -> string -> option Claims.
(** The store's cast of a value to an ObjectId; [None] is a cast error. *)
Variable castObjectId : string -> option ObjectId.

(** *** The collections *)

(** [User.create({username, password})]. Modelled from the spec: the
    username is unique (storage-layer uniqueness constraint), as is [_id]. *)
Definition User_create (env : Env) (name pw : string) : M User :=
  fun w =>
    if existsb (fun u => String.eqb (username u) name
                         || String.eqb (u_id u) (new_oid env)) (users w)
    then (Throw DuplicateKey, w)
    else
      let u := {| u_id := new_oid env; username := name; password := pw |} in
      (Ok u, {| users := users w ++ [u]; posts := posts w; disk := disk w |}).

(** [User.findOne({username})]. *)
Definition User_findOne (name : string) : M (option User) :=
  fun w => (Ok (List.find (fun u => String.eqb (username u) name) (users w)), w).

(** [Post.create({title, summary, content, cover, author})]: the author is
    cast to an ObjectId, the creation timestamp is the clock's. *)
Definition Post_create (env : Env) (t s c cov auth : string) : M Post :=
  fun w =>
    match castObjectId auth with
    | None => (Throw CastError, w)
    | Some a =>
        if existsb (fun p => String.eqb (p_id p) (new_oid env)) (posts w)
        then (Throw DuplicateKey, w)
        else
          let p := {| p_id := new_oid env; title := t; summary := s;
                      content := c; cover := cov; author := a;
                      createdAt := now env |} in
          (Ok p, {| users := users w; posts := posts w ++ [p]; disk := disk w |})
    end.

(** [Post.findById(id)]. *)
Definition Post_findById (id : string) : M (option Post) :=
  fun w =>
    match castObjectId id with
    | None => (Throw CastError, w)
    | Some o => (Ok (List.find (fun p => String.eqb (p_id p) o) (posts w)), w)
    end.

(** [postDoc.updateOne({title, summary, content, cover})]: sets the four
    fields of the stored document whose [_id] is [postDoc]'s. *)
Definition Post_updateOne (postDoc : Post) (t s c cov : string) : M unit :=
  fun w =>
    (Ok tt,
     {| users := users w;
        posts := map (fun p =>
                        if String.eqb (p_id p) (p_id postDoc)
                        then {| p_id := p_id p; title := t; summary := s;
                                content := c; cover := cov;
                                author := author p; createdAt := createdAt p |}
                        else p) (posts w);
        disk := disk w |}).

(** [Post.findByIdAndDelete(id)]: removes the document whose [_id] is [id]
    ([_id] is the collection's key, at most one document has it). *)
Definition Post_findByIdAndDelete (id : string) : M unit :=
  fun w =>
    match castObjectId id with
    | None => (Throw CastError, w)
    | Some o =>
        (Ok tt,
         {| users := users w;
            posts := List.filter (fun p => negb (String.eqb (p_id p) o)) (posts w);
            disk := disk w |})
    end.

(** [.populate('author', ['username'])] on one document. *)
Definition populate_author (us : list User) (p : Post) : Populated :=
  {| doc := p;
     author_doc :=
       match List.find (fun u => String.eqb (u_id u) (author p)) us with
       | Some u => Some {| ref_id := u_id u; ref_username := username u |}
       | None => None
       end |}.

(** [Post.find().populate('author', ['username']).sort({createdAt: -1}).limit(20)] *)
Definition Post_find_list : M (list Populated) :=
  fun w =>
    (Ok (limit 20
           (sort_by (fun x => createdAt (doc x)) (-1)
              (map (populate_author (users w)) (posts w)))), w).

(** *** The upload middleware *)

(** [multer({ dest: 'uploads/' }).single('file')]: stores the part under a
    random name in [uploads/] and hands [req.file] to the handler. *)
Definition uploadMiddleware_single (env : Env) (req : Request) : M (option File) :=
  match upload req with
  | None => ret None
  | Some u =>
      let p := "uploads/" +:+ random_name env in
      fs.writeFile p (up_data u) ;;
      ret (Some {| originalname := up_originalname u; path := p |})
  end.

Definition token_cookie (value : string) : Cookie :=
  {| ck_name := "token"; ck_value := value; httpOnly := true;
     secure := production; sameSite := "none" |}.

(** *** The routes *)

(** [app.post('/register')] *)
Definition app_post_register (env : Env) (req : Request) : M Response :=
  let username' := body_username req in
  let password' := body_password req in
  try_catch
    (userDoc <- User_create env username' (bcrypt_hashSync password' salt) ;;
     ret (res_json (JUser userDoc)))
    (fun e => ret (res_status_json 400 (JExn e))).

(** [app.post('/login')] *)
Definition app_post_login (env : Env) (req : Request) : M Response :=
  let username' := body_username req in
  let password' := body_password req in
  try_catch
    (userDoc <- User_findOne username' ;;
     match userDoc with
     | None => ret (res_status_json 400 (JStr "wrong credentials"))
     | Some userDoc =>
         let passOk := bcrypt_compareSync password' (password userDoc) in
         if negb passOk then ret (res_status_json 400 (JStr "wrong credentials"))
         else
           let token :=
             jwt_sign {| c_username := username'; c_id := u_id userDoc |} secret in
           ret {| status := 200;
                  body := JIdentity (u_id userDoc) username';
                  set_cookie := [token_cookie token] |}
     end)
    (fun err => ret (res_status_json 500 (JStr "Internal server error"))).

(** [app.get('/profile')] *)
Definition app_get_profile (env : Env) (req : Request) : M Response :=
  let token := cookie_token req in
  if negb (Js.truthy_opt token)
  then ret (res_status_json 401 (JError "No token provided"))
  else
    match jwt_verify (default EmptyString token) secret with
    | None => ret (res_status_json 403 (JError "Invalid token"))
    | Some info => ret (res_json (JClaims info))
    end.

(** [app.post('/logout')] *)
Definition app_post_logout (env : Env) (req : Request) : M Response :=
  ret {| status := 200; body := JStr "ok";
         set_cookie := [token_cookie EmptyString] |}.

(** [app.post('/post', uploadMiddleware.single('file'), ...)] *)
Definition app_post_post (env : Env) (req : Request) : M Response :=
  file <- uploadMiddleware_single env req ;;
  let token := cookie_token req in
  if negb (Js.truthy_opt token)
  then ret (res_status_json 401 (JError "No token provided"))
  else
    match jwt_verify (default EmptyString token) secret with
    | None => ret (res_status_json 403 (JError "Invalid token"))
    | Some info =>
        match file with
        | None => ret (res_status_json 400 (JError "No file uploaded"))
        | Some file =>
            let parts := Js.split "." (originalname file) in
            let ext := Js.index_str parts (Z.of_nat (length parts) - 1) in
            let newPath := path file +:+ "." +:+ ext in
            fs.renameSync (path file) newPath ;;
            try_catch
              (postDoc <- Post_create env (body_title req) (body_summary req)
                            (body_content req) newPath (c_id info) ;;
               ret (res_json (JPost postDoc)))
              (fun error =>
                 ret (res_status_json 500 (JError "Failed to create post")))
        end
    end.

(** [app.put('/post', uploadMiddleware.single('file'), ...)] *)
Definition app_put_post (env : Env) (req : Request) : M Response :=
  file <- uploadMiddleware_single env req ;;
  let token := cookie_token req in
  if negb (Js.truthy_opt token)
  then ret (res_status_json 401 (JError "No token provided"))
  else
    match jwt_verify (default EmptyString token) secret with
    | None => ret (res_status_json 403 (JError "Invalid token"))
    | Some info =>
        newPath <-
          match file with
          | Some file =>
              let parts := Js.split "." (originalname file) in
              let ext := Js.index_str parts (Z.of_nat (length parts) - 1) in
              let newPath := path file +:+ "." +:+ ext in
              fs.renameSync (path file) newPath ;;
              ret (Some newPath)
          | None => ret None
          end ;;
        try_catch
          (postDoc <- Post_findById (body_id req) ;;
           match postDoc with
           | None => ret (res_status_json 404 (JStr "Post not found"))
           | Some postDoc =>
               let isAuthor :=
                 String.eqb (Js.JSON_stringify (author postDoc))
                            (Js.JSON_stringify (c_id info)) in
               if negb isAuthor
               then ret (res_status_json 403 (JStr "You are not the author"))
               else
                 Post_updateOne postDoc (body_title req) (body_summary req)
                   (body_content req)
                   (if Js.truthy_opt newPath
                    then default EmptyString newPath
                    else cover postDoc) ;;
                 ret (res_json (JPost postDoc))
           end)
          (fun error =>
             ret (res_status_json 500 (JError "Failed to update post")))
    end.

(** [app.get('/post')] *)
Definition app_get_post (env : Env) (req : Request) : M Response :=
  try_catch
    (found <- Post_find_list ;;
     ret (res_json (JPosts found)))
    (fun error => ret (res_status_json 500 (JError "Failed to get posts"))).

(** [app.get('/post/:id')] *)
Definition app_get_post_id (env : Env) (req : Request) : M Response :=
  let id := params_id req in
  try_catch
    (postDoc <- Post_findById id ;;
     match postDoc with
     | None => ret (res_status_json 404 (JStr "Post not found"))
     | Some postDoc =>
         fun w => (Ok (res_json (JPopulated (populate_author (users w) postDoc))), w)
     end)
    (fun error => ret (res_status_json 500 (JError "Failed to get post"))).

(** [app.delete('/post/:id')] *)
Definition app_delete_post_id (env : Env) (req : Request) : M Response :=
  let token := cookie_token req in
  let id := params_id req in
  if negb (Js.truthy_opt token)
  then ret (res_status_json 401 (JError "No token provided"))
  else
    match jwt_verify (default EmptyString token) secret with
    | None => ret (res_status_json 403 (JError "Invalid token"))
    | Some info =>
        try_catch
          (postDoc <- Post_findById id ;;
           match postDoc with
           | None => ret (res_status_json 404 (JStr "Post not found"))
           | Some postDoc =>
               let isAuthor :=
                 String.eqb (Js.JSON_stringify (author postDoc))
                            (Js.JSON_stringify (c_id info)) in
               if negb isAuthor
               then ret (res_status_json 403 (JStr "You are not the author"))
               else
                 (if Js.truthy (cover postDoc)
                  then
                    present <- fs.existsSync (cover postDoc) ;;
                    if present then fs.unlinkSync (cover postDoc) else ret tt
                  else ret tt) ;;
                 Post_findByIdAndDelete id ;;
                 ret (res_json JSuccess)
           end)
          (fun error => ret (res_status_json 500 (JStr "Failed to delete post")))
    end.

(** ** What the upload middleware and the rename leave behind *)

(** The world after the middleware stored the part and the handler renamed
    it: the contents sit at the new path, the collections are untouched. *)
Definition after_upload (w : World) (p newp data : string) : World :=
  {| users := users w; posts := posts w;
     disk := <[newp := data]> (delete p (<[p := data]> (disk w))) |}.

(** The path the upload middleware stores the part at ([req.file.path]). *)
Definition upload_path (env : Env) : string := "uploads/" +:+ random_name env.

(** [path + '.' + ext], with [ext] the last piece of the original name
    split on dots. *)
Definition cover_path (env : Env) (u : Upload) : string :=
  upload_path env +:+ "." +:+
  Js.index_str (Js.split "." (up_originalname u))
    (Z.of_nat (length (Js.split "." (up_originalname u))) - 1).

(** The world once a request with an upload went through the middleware
    and the rename of [POST /post] or [PUT /post]. *)
Definition world_after_upload (env : Env) (req : Request) (w : World) : World :=
  match upload req with
  | None => w
  | Some u => after_upload w (upload_path env) (cover_path env u) (up_data u)
  end.

(** The stored document [q] once [postDoc.updateOne] has run for the found
    document [p]: the three text fields of the request, the renamed upload
    path as cover when there is an upload and [p]'s cover otherwise. *)
Definition updated_post (env : Env) (req : Request) (p q : Post) : Post :=
  {| p_id := p_id q;
     title := body_title req;
     summary := body_summary req;
     content := body_content req;
     cover := match upload req with
              | Some u => cover_path env u
              | None => cover p
              end;
     author := author q;
     createdAt := createdAt q |}.

(** The world after the author's update of [p]. *)
Definition world_after_update (env : Env) (req : Request) (p : Post) (w : World) : World :=
  {| users := users w;
     posts := map (fun q => if String.eqb (p_id q) (p_id p)
                            then updated_post env req p q else q) (posts w);
     disk := disk (world_after_upload env req w) |}.

(** The world once the cover file of [p] is gone from disk, the
    collections still as they were. *)
Definition world_after_unlink (p : Post) (w : World) : World :=
  {| users := users w; posts := posts w;
     disk := if Js.truthy (cover p) then delete (cover p) (disk w)
             else disk w |}.

(** The world after the author deleted [p]: cover file gone, then the
    record gone. *)
Definition world_after_delete (p : Post) (w : World) : World :=
  {| users := users w;
     posts := List.filter (fun q => negb (String.eqb (p_id q) (p_id p)))
                (posts w);
     disk := disk (world_after_unlink p w) |}.

(** The world once the upload middleware alone has run: the part sits
    under its random name, nothing else has changed. *)
Definition world_after_middleware (env : Env) (req : Request) (w : World) : World :=
  match upload req with
  | None => w
  | Some u =>
      {| users := users w; posts := posts w;
         disk := <[upload_path env := up_data u]> (disk w) |}
  end.

(** The document [POST /post] stores for upload [u] and author [a]. *)
Definition created_post (env : Env) (req : Request) (u : Upload) (a : ObjectId) : Post :=
  {| p_id := new_oid env;
     title := body_title req;
     summary := body_summary req;
     content := body_content req;
     cover := cover_path env u;
     author := a;
     createdAt := now env |}.

(** The world after a create that stored [created_post]. *)
Definition world_after_create (env : Env) (req : Request) (u : Upload) (a : ObjectId)
    (w : World) : World :=
  {| users := users w;
     posts := posts w ++ [created_post env req u a];
     disk := disk (world_after_upload env req w) |}.

(** The user document [POST /register] stores. *)
Definition registered_user (env : Env) (req : Request) : User :=
  {| u_id := new_oid env;
     username := body_username req;
     password := bcrypt_hashSync (body_password req) salt |}.

(** Some stored user has this username. *)
Definition username_taken (name : string) (w : World) : Prop :=
  exists u, In u (users w) /\ username u = name.

(** No stored user has this [_id]. *)
Definition user_id_free (id : ObjectId) (w : World) : Prop :=
  forall u, In u (users w) -> u_id u <> id.

(** [x] is at least as recent as [y]. *)
Definition newer_or_equal {A} (key : A -> N) (x y : A) : Prop :=
  (key y <= key x)%N.

(** What [populate] joins in for a post: id and username of the stored
    user the author field refers to, nothing when no user has that id. *)
Definition joined_author (us : list User) (p : Post) : option AuthorRef :=
  option_map (fun u => {| ref_id := u_id u; ref_username := username u |})
    (List.find (fun u => String.eqb (u_id u) (author p)) us).

(** The sentence of the specification on creating without a session, as
    it is written: every create request without a valid session cookie
    (missing, or of invalid signature) is answered 401 and creates no
    post. *)
Definition create_without_session_is_401 : Prop :=
  forall (env : Env) (req : Request) (w : World),
    Js.truthy_opt (cookie_token req) = false
    \/ jwt_verify (default EmptyString (cookie_token req)) secret = None ->
    exists r w',
      app_post_post env req w = (Ok r, w')
      /\ status r = 401%nat
      /\ posts w' = posts w.

(** Every post's author field refers to a stored user. *)
Definition authors_stored (w : World) : Prop :=
  forall p, In p (posts w) -> exists u, In u (users w) /\ u_id u = author p.

(** ** The routing table *)

(** The routes [app.METHOD(path, handler)] registers. *)
Inductive Route :=
| POST_register
| POST_login
| GET_profile
| POST_logout
| POST_post
| PUT_post
| GET_post
| GET_post_id
| DELETE_post_id.

(** The handler a route dispatches to. *)
Definition app_handle (rt : Route) : Env -> Request -> M Response :=
  match rt with
  | POST_register => app_post_register
  | POST_login => app_post_login
  | GET_profile => app_get_profile
  | POST_logout => app_post_logout
  | POST_post => app_post_post
  | PUT_post => app_put_post
  | GET_post => app_get_post
  | GET_post_id => app_get_post_id
  | DELETE_post_id => app_delete_post_id
  end.

(** The world after the server handled the requests one after the other. *)
Fixpoint serve (reqs : list (Route * Env * Request)) (w : World) : World :=
  match reqs with
  | [] => w
  | (rt, env, req) :: rest => serve rest (snd (app_handle rt env req w))
  end.

(** The request carries a token cookie that verifies to [info]. *)
Definition session (req : Request) (info : Claims) : Prop :=
  Js.truthy_opt (cookie_token req) = true
  /\ jwt_verify (default EmptyString (cookie_token req)) secret = Some info.

(** Document ids and usernames are keys: no two stored documents share
    one. *)
Definition keys_unique (w : World) : Prop :=
  List.NoDup (map p_id (posts w))
  /\ List.NoDup (map u_id (users w))
  /\ List.NoDup (map username (users w)).

(** ** Lemmas on the string functions *)

Lemma split_nonempty sep s : Js.split sep s <> [].
Proof.
  destruct s as [|c r]; simpl; [discriminate|].
  destruct (Ascii.eqb c sep); [discriminate|].
  destruct (Js.split sep r); discriminate.
Qed.

Lemma split_no_sep sep s :
  contains_char sep s = false -> Js.split sep s = [s].
Proof.
  induction s as [|c r IH]; simpl; [reflexivity|].
  destruct (Ascii.eqb c sep); simpl; [discriminate|].
  intros H. rewrite (IH H). reflexivity.
Qed.

Lemma append_cons x (a b : string) : String x a +:+ b = String x (a +:+ b).
Proof. reflexivity. Qed.

Lemma append_assoc (a b c : string) : (a +:+ b) +:+ c = a +:+ (b +:+ c).
Proof.
  induction a as [|x a IH]; [reflexivity|].
  rewrite !append_cons. f_equal. exact IH.
Qed.

Lemma append_empty_r (a : string) : a +:+ EmptyString = a.
Proof.
  induction a as [|x a IH]; [reflexivity|].
  rewrite append_cons. f_equal. exact IH.
Qed.

Lemma json_unescape_escape c r :
  Js.json_unescape (Js.json_escape c +:+ r) = String c (Js.json_unescape r).
Proof.
  destruct c as [[] [] [] [] [] [] [] []]; reflexivity.
Qed.

Lemma json_unescape_escape_all s r :
  Js.json_unescape (Js.json_escape_all s +:+ r) = s +:+ Js.json_unescape r.
Proof.
  induction s as [|c s IH]; [reflexivity|].
  cbn [Js.json_escape_all].
  rewrite append_assoc, json_unescape_escape, append_cons.
  f_equal. apply IH.
Qed.

Lemma JSON_stringify_inj a b :
  Js.JSON_stringify a = Js.JSON_stringify b -> a = b.
Proof.
  unfold Js.JSON_stringify. intros H. injection H as H.
  apply (f_equal Js.json_unescape) in H.
  rewrite !json_unescape_escape_all in H.
  change (Js.json_unescape (String Js.dquote EmptyString))
    with (String Js.dquote EmptyString) in H.
  assert (T : forall x y : string,
             x +:+ String Js.dquote EmptyString
             = y +:+ String Js.dquote EmptyString -> x = y).
  { induction x as [|c x IH]; intros [|d y] E; try reflexivity.
    - rewrite append_cons in E. injection E as _ E.
      destruct y; discriminate.
    - rewrite append_cons in E. injection E as _ E.
      destruct x; discriminate.
    - rewrite !append_cons in E. injection E as -> E.
      f_equal. apply IH, E. }
  apply T, H.
Qed.

Lemma JSON_stringify_eqb a b :
  String.eqb (Js.JSON_stringify a) (Js.JSON_stringify b) = String.eqb a b.
Proof.
  destruct (String.eqb_spec a b) as [->|Hne].
  - apply String.eqb_refl.
  - apply String.eqb_neq. intros H. apply Hne, JSON_stringify_inj, H.
Qed.


Lemma findById_inv (id : string) (w : World) (p : Post) :
  fst (Post_findById id w) = Ok (Some p) ->
  exists o, castObjectId id = Some o
            /\ List.find (fun q => String.eqb (p_id q) o) (posts w) = Some p.
Proof.
  unfold Post_findById. destruct (castObjectId id) as [o|]; simpl.
  - intros [= H]. eauto.
  - discriminate.
Qed.

Lemma isAuthor_eqb (a b : string) :
  String.eqb (Js.JSON_stringify a) (Js.JSON_stringify b) = String.eqb a b.
Proof. apply JSON_stringify_eqb. Qed.

(** ** Running a handler *)

Ltac run :=
  cbv beta iota zeta delta
    [app_post_register app_post_login app_get_profile app_post_logout
     app_post_post app_put_post app_get_post app_get_post_id app_delete_post_id
     bind ret throw try_catch uploadMiddleware_single
     fs.writeFile fs.renameSync fs.existsSync fs.unlinkSync
     User_create User_findOne Post_create Post_findById Post_updateOne
     Post_findByIdAndDelete Post_find_list];
  cbn [users posts disk originalname path up_originalname up_data fst snd negb].

Tactic Notation "step" uconstr(H) := rewrite H; run.

Lemma cover_path_truthy env u : Js.truthy (cover_path env u) = true.
Proof. reflexivity. Qed.

Lemma isAuthor_false (info : Claims) (p : Post) :
  c_id info <> author p ->
  String.eqb (Js.JSON_stringify (author p)) (Js.JSON_stringify (c_id info))
  = false.
Proof.
  intros Hne. rewrite isAuthor_eqb. apply String.eqb_neq. congruence.
Qed.

Lemma put_by_non_author
  (env : Env) (req : Request) (w : World) (info : Claims) (p : Post) :
  Js.truthy_opt (cookie_token req) = true ->
  jwt_verify (default EmptyString (cookie_token req)) secret = Some info ->
  fst (Post_findById (body_id req) w) = Ok (Some p) ->
  c_id info <> author p ->
  app_put_post env req w
  = (Ok (res_status_json 403 (JStr "You are not the author")),
     world_after_upload env req w).
Proof.
  intros Htok Hver Hfind Hne.
  apply findById_inv in Hfind as (o & Hcast & Hfind).
  pose proof (isAuthor_false info p Hne) as Hauth.
  unfold world_after_upload. run. destruct (upload req) as [u|]; run.
  - step Htok. step Hver. step lookup_insert_eq.
    step Hcast. step Hfind. step Hauth. reflexivity.
  - step Htok. step Hver. step Hcast. step Hfind. step Hauth.
    reflexivity.
Qed.

Lemma delete_by_non_author
  (env : Env) (req : Request) (w : World) (info : Claims) (p : Post) :
  Js.truthy_opt (cookie_token req) = true ->
  jwt_verify (default EmptyString (cookie_token req)) secret = Some info ->
  fst (Post_findById (params_id req) w) = Ok (Some p) ->
  c_id info <> author p ->
  app_delete_post_id env req w
  = (Ok (res_status_json 403 (JStr "You are not the author")), w).
Proof.
  intros Htok Hver Hfind Hne.
  apply findById_inv in Hfind as (o & Hcast & Hfind).
  pose proof (isAuthor_false info p Hne) as Hauth.
  run. step Htok. step Hver. step Hcast. step Hfind. step Hauth.
  reflexivity.
Qed.

Lemma posts_after_upload env req w : posts (world_after_upload env req w) = posts w.
Proof. unfold world_after_upload. destruct (upload req); reflexivity. Qed.

Lemma users_after_upload env req w : users (world_after_upload env req w) = users w.
Proof. unfold world_after_upload. destruct (upload req); reflexivity. Qed.

Lemma put_by_author
  (env : Env) (req : Request) (w : World) (info : Claims) (p : Post) :
  Js.truthy_opt (cookie_token req) = true ->
  jwt_verify (default EmptyString (cookie_token req)) secret = Some info ->
  fst (Post_findById (body_id req) w) = Ok (Some p) ->
  c_id info = author p ->
  app_put_post env req w
  = (Ok (res_json (JPost p)), world_after_update env req p w).
Proof.
  intros Htok Hver Hfind Hauth.
  apply findById_inv in Hfind as (o & Hcast & Hfind).
  assert (Heq : String.eqb (Js.JSON_stringify (author p))
                           (Js.JSON_stringify (c_id info)) = true).
  { rewrite isAuthor_eqb, Hauth. apply String.eqb_refl. }
  unfold world_after_update, world_after_upload, updated_post. run.
  destruct (upload req) as [u|]; run.
  - step Htok. step Hver. step lookup_insert_eq.
    step Hcast. step Hfind. step Heq.
    reflexivity.
  - step Htok. step Hver. step Hcast. step Hfind. step Heq.
    reflexivity.
Qed.

Lemma put_success_inv
  (env : Env) (req : Request) (w w' : World) (r : Response) :
  app_put_post env req w = (Ok r, w') -> status r = 200%nat ->
  exists info p,
    Js.truthy_opt (cookie_token req) = true
    /\ jwt_verify (default EmptyString (cookie_token req)) secret = Some info
    /\ fst (Post_findById (body_id req) w) = Ok (Some p)
    /\ c_id info = author p
    /\ r = res_json (JPost p)
    /\ w' = world_after_update env req p w.
Proof.
  intros Hrun Hst.
  destruct (Js.truthy_opt (cookie_token req)) eqn:Htok.
  2:{ revert Hrun. run. destruct (upload req); run; step Htok;
      intros [= <- _]; discriminate. }
  destruct (jwt_verify (default EmptyString (cookie_token req)) secret)
    as [info|] eqn:Hver.
  2:{ revert Hrun. run. destruct (upload req); run; step Htok; step Hver;
      intros [= <- _]; discriminate. }
  destruct (fst (Post_findById (body_id req) w)) as [[p|]|e] eqn:Hfind.
  - destruct (String.eqb (c_id info) (author p)) eqn:Hauth.
    + apply String.eqb_eq in Hauth.
      rewrite (put_by_author env req w info p Htok Hver Hfind Hauth) in Hrun.
      injection Hrun as <- <-. exists info, p. repeat split; assumption.
    + apply String.eqb_neq in Hauth.
      rewrite (put_by_non_author env req w info p Htok Hver Hfind Hauth)
        in Hrun.
      injection Hrun as <- _. discriminate.
  - exfalso. revert Hrun Hfind. run.
    destruct (castObjectId (body_id req)) as [o|]; cbn [fst]; [|discriminate].
    intros Hrun [= Hfind]. revert Hrun.
    destruct (upload req); run; step Htok; step Hver;
      try step lookup_insert_eq; step Hfind; intros [= <- _]; discriminate.
  - exfalso. revert Hrun Hfind. run.
    destruct (castObjectId (body_id req)) as [o|]; cbn [fst]; [discriminate|].
    intros Hrun _. revert Hrun.
    destruct (upload req); run; step Htok; step Hver;
      try step lookup_insert_eq; intros [= <- _]; discriminate.
Qed.

Lemma findById_id (id : string) (w : World) (p : Post) :
  fst (Post_findById id w) = Ok (Some p) -> castObjectId id = Some (p_id p).
Proof.
  intros H. apply findById_inv in H as (o & Hcast & Hfind).
  apply find_some in Hfind as [_ Heq]. apply String.eqb_eq in Heq.
  congruence.
Qed.

Lemma isAuthor_true (info : Claims) (p : Post) :
  c_id info = author p ->
  String.eqb (Js.JSON_stringify (author p)) (Js.JSON_stringify (c_id info))
  = true.
Proof. intros ->. apply String.eqb_refl. Qed.

Lemma delete_by_author
  (env : Env) (req : Request) (w : World) (info : Claims) (p : Post) :
  Js.truthy_opt (cookie_token req) = true ->
  jwt_verify (default EmptyString (cookie_token req)) secret = Some info ->
  fst (Post_findById (params_id req) w) = Ok (Some p) ->
  c_id info = author p ->
  app_delete_post_id env req w
  = (Ok (res_json JSuccess), world_after_delete p w).
Proof.
  intros Htok Hver Hfind Hauth.
  pose proof (findById_id _ _ _ Hfind) as Hcast.
  apply findById_inv in Hfind as (o & Hcast' & Hfind).
  assert (o = p_id p) as -> by congruence. clear Hcast'.
  pose proof (isAuthor_true info p Hauth) as Heq.
  unfold world_after_delete, world_after_unlink.
  run. step Htok. step Hver. step Hcast. step Hfind. step Heq.
  destruct (Js.truthy (cover p)); run.
  - destruct (disk w !! cover p) as [data|] eqn:E; run.
    + change (bool_decide (is_Some (Some data))) with true. run.
      step E. reflexivity.
    + change (bool_decide (is_Some (@None string))) with false. run.
      rewrite (delete_id _ _ E). reflexivity.
  - reflexivity.
Qed.

Lemma delete_success_inv
  (env : Env) (req : Request) (w w' : World) (r : Response) :
  app_delete_post_id env req w = (Ok r, w') -> status r = 200%nat ->
  exists info p,
    Js.truthy_opt (cookie_token req) = true
    /\ jwt_verify (default EmptyString (cookie_token req)) secret = Some info
    /\ fst (Post_findById (params_id req) w) = Ok (Some p)
    /\ c_id info = author p
    /\ r = res_json JSuccess
    /\ w' = world_after_delete p w.
Proof.
  intros Hrun Hst.
  destruct (Js.truthy_opt (cookie_token req)) eqn:Htok.
  2:{ revert Hrun. run. step Htok. intros [= <- _]; discriminate. }
  destruct (jwt_verify (default EmptyString (cookie_token req)) secret)
    as [info|] eqn:Hver.
  2:{ revert Hrun. run. step Htok. step Hver.
      intros [= <- _]; discriminate. }
  destruct (fst (Post_findById (params_id req) w)) as [[p|]|e] eqn:Hfind.
  - destruct (String.eqb (c_id info) (author p)) eqn:Hauth.
    + apply String.eqb_eq in Hauth.
      rewrite (delete_by_author env req w info p Htok Hver Hfind Hauth)
        in Hrun.
      injection Hrun as <- <-. exists info, p. repeat split; assumption.
    + apply String.eqb_neq in Hauth.
      rewrite (delete_by_non_author env req w info p Htok Hver Hfind Hauth)
        in Hrun.
      injection Hrun as <- _. discriminate.
  - exfalso. revert Hrun Hfind. run.
    destruct (castObjectId (params_id req)) as [o|]; cbn [fst]; [|discriminate].
    intros Hrun [= Hfind]. revert Hrun.
    step Htok. step Hver. step Hfind. intros [= <- _]; discriminate.
  - exfalso. revert Hrun Hfind. run.
    destruct (castObjectId (params_id req)) as [o|]; cbn [fst]; [discriminate|].
    intros Hrun _. revert Hrun.
    step Htok. step Hver. intros [= <- _]; discriminate.
Qed.

Lemma posts_after_middleware env req w :
  posts (world_after_middleware env req w) = posts w.
Proof. unfold world_after_middleware. destruct (upload req); reflexivity. Qed.

Lemma users_after_middleware env req w :
  users (world_after_middleware env req w) = users w.
Proof. unfold world_after_middleware. destruct (upload req); reflexivity. Qed.

Lemma create_without_token (env : Env) (req : Request) (w : World) :
  Js.truthy_opt (cookie_token req) = false ->
  app_post_post env req w
  = (Ok (res_status_json 401 (JError "No token provided")),
     world_after_middleware env req w).
Proof.
  intros Htok. unfold world_after_middleware. run.
  destruct (upload req); run; step Htok; reflexivity.
Qed.

Lemma create_with_invalid_token (env : Env) (req : Request) (w : World) :
  Js.truthy_opt (cookie_token req) = true ->
  jwt_verify (default EmptyString (cookie_token req)) secret = None ->
  app_post_post env req w
  = (Ok (res_status_json 403 (JError "Invalid token")),
     world_after_middleware env req w).
Proof.
  intros Htok Hver. unfold world_after_middleware. run.
  destruct (upload req); run; step Htok; step Hver; reflexivity.
Qed.

Lemma create_without_file (env : Env) (req : Request) (w : World) (info : Claims) :
  Js.truthy_opt (cookie_token req) = true ->
  jwt_verify (default EmptyString (cookie_token req)) secret = Some info ->
  upload req = None ->
  app_post_post env req w
  = (Ok (res_status_json 400 (JError "No file uploaded")), w).
Proof.
  intros Htok Hver Hup. run. step Hup. step Htok. step Hver. reflexivity.
Qed.

Lemma create_by_user
  (env : Env) (req : Request) (w : World) (info : Claims) (u : Upload)
  (a : ObjectId) :
  Js.truthy_opt (cookie_token req) = true ->
  jwt_verify (default EmptyString (cookie_token req)) secret = Some info ->
  upload req = Some u ->
  castObjectId (c_id info) = Some a ->
  existsb (fun p => String.eqb (p_id p) (new_oid env)) (posts w) = false ->
  app_post_post env req w
  = (Ok (res_json (JPost (created_post env req u a))),
     world_after_create env req u a w).
Proof.
  intros Htok Hver Hup Hcast Hfresh.
  unfold world_after_create, world_after_upload, created_post. run.
  step Hup. step Htok. step Hver. step lookup_insert_eq.
  step Hcast. step Hfresh. reflexivity.
Qed.

Lemma create_failure
  (env : Env) (req : Request) (w : World) (info : Claims) (u : Upload) :
  Js.truthy_opt (cookie_token req) = true ->
  jwt_verify (default EmptyString (cookie_token req)) secret = Some info ->
  upload req = Some u ->
  castObjectId (c_id info) = None
  \/ existsb (fun p => String.eqb (p_id p) (new_oid env)) (posts w) = true ->
  app_post_post env req w
  = (Ok (res_status_json 500 (JError "Failed to create post")),
     world_after_upload env req w).
Proof.
  intros Htok Hver Hup Hfail.
  unfold world_after_upload. run.
  step Hup. step Htok. step Hver. step lookup_insert_eq.
  destruct (castObjectId (c_id info)) as [a|]; run.
  - destruct Hfail as [|Hdup]; [discriminate|]. step Hdup. reflexivity.
  - reflexivity.
Qed.

Lemma create_success_inv
  (env : Env) (req : Request) (w w' : World) (r : Response) :
  app_post_post env req w = (Ok r, w') -> status r = 200%nat ->
  exists info u a,
    Js.truthy_opt (cookie_token req) = true
    /\ jwt_verify (default EmptyString (cookie_token req)) secret = Some info
    /\ upload req = Some u
    /\ castObjectId (c_id info) = Some a
    /\ r = res_json (JPost (created_post env req u a))
    /\ w' = world_after_create env req u a w.
Proof.
  intros Hrun Hst.
  destruct (Js.truthy_opt (cookie_token req)) eqn:Htok.
  2:{ rewrite (create_without_token env req w Htok) in Hrun.
      injection Hrun as <- _. discriminate. }
  destruct (jwt_verify (default EmptyString (cookie_token req)) secret)
    as [info|] eqn:Hver.
  2:{ rewrite (create_with_invalid_token env req w Htok Hver) in Hrun.
      injection Hrun as <- _. discriminate. }
  destruct (upload req) as [u|] eqn:Hup.
  2:{ rewrite (create_without_file env req w info Htok Hver Hup) in Hrun.
      injection Hrun as <- _. discriminate. }
  destruct (castObjectId (c_id info)) as [a|] eqn:Hcast.
  2:{ rewrite (create_failure env req w info u Htok Hver Hup (or_introl Hcast))
        in Hrun.
      injection Hrun as <- _. discriminate. }
  destruct (existsb (fun p => String.eqb (p_id p) (new_oid env)) (posts w))
    eqn:Hfresh.
  { rewrite (create_failure env req w info u Htok Hver Hup (or_intror Hfresh))
      in Hrun.
    injection Hrun as <- _. discriminate. }
  rewrite (create_by_user env req w info u a Htok Hver Hup Hcast Hfresh) in Hrun.
  injection Hrun as <- <-. exists info, u, a. repeat split; assumption.
Qed.

Lemma register_new (env : Env) (req : Request) (w : World) :
  ~ username_taken (body_username req) w ->
  user_id_free (new_oid env) w ->
  app_post_register env req w
  = (Ok (res_json (JUser (registered_user env req))),
     {| users := users w ++ [registered_user env req];
        posts := posts w; disk := disk w |}).
Proof.
  intros Hfree Hid. run.
  assert (E : existsb
                (fun u => String.eqb (username u) (body_username req)
                          || String.eqb (u_id u) (new_oid env)) (users w)
              = false).
  { apply not_true_is_false. intros H.
    apply existsb_exists in H as (u & Hin & Hu).
    apply orb_true_iff in Hu as [Hu|Hu]; apply String.eqb_eq in Hu.
    - apply Hfree. exists u. split; assumption.
    - apply (Hid u Hin Hu). }
  step E. reflexivity.
Qed.

Lemma register_taken (env : Env) (req : Request) (w : World) :
  username_taken (body_username req) w ->
  app_post_register env req w
  = (Ok (res_status_json 400 (JExn DuplicateKey)), w).
Proof.
  intros (u & Hin & Hu). run.
  assert (E : existsb
                (fun u => String.eqb (username u) (body_username req)
                          || String.eqb (u_id u) (new_oid env)) (users w)
              = true).
  { apply existsb_exists. exists u. split; [assumption|].
    apply orb_true_iff. left. apply String.eqb_eq, Hu. }
  step E. reflexivity.
Qed.

Lemma findOne_eq (name : string) (w : World) :
  User_findOne name w = (fst (User_findOne name w), w).
Proof. reflexivity. Qed.

Lemma login_unknown_user (env : Env) (req : Request) (w : World) :
  fst (User_findOne (body_username req) w) = Ok None ->
  app_post_login env req w
  = (Ok (res_status_json 400 (JStr "wrong credentials")), w).
Proof.
  intros H. unfold app_post_login, try_catch, bind.
  rewrite findOne_eq, H. reflexivity.
Qed.

Lemma login_wrong_password (env : Env) (req : Request) (w : World) (u : User) :
  fst (User_findOne (body_username req) w) = Ok (Some u) ->
  bcrypt_compareSync (body_password req) (password u) = false ->
  app_post_login env req w
  = (Ok (res_status_json 400 (JStr "wrong credentials")), w).
Proof.
  intros H Hpw. unfold app_post_login, try_catch, bind.
  rewrite findOne_eq, H. cbv zeta. rewrite Hpw. reflexivity.
Qed.

Lemma login_ok (env : Env) (req : Request) (w : World) (u : User) :
  fst (User_findOne (body_username req) w) = Ok (Some u) ->
  bcrypt_compareSync (body_password req) (password u) = true ->
  app_post_login env req w
  = (Ok {| status := 200;
           body := JIdentity (u_id u) (body_username req);
           set_cookie :=
             [token_cookie
                (jwt_sign {| c_username := body_username req; c_id := u_id u |}
                   secret)] |}, w).
Proof.
  intros H Hpw. unfold app_post_login, try_catch, bind.
  rewrite findOne_eq, H. cbv zeta. rewrite Hpw. reflexivity.
Qed.

Lemma sort_insert_perm {A} (key : A -> N) dir x l :
  Permutation (sort_insert key dir x l) (x :: l).
Proof.
  induction l as [|y l IH]; simpl; [reflexivity|].
  destruct (sort_leb key dir x y); [reflexivity|].
  rewrite IH. apply perm_swap.
Qed.

Lemma sort_by_perm {A} (key : A -> N) dir l :
  Permutation (sort_by key dir l) l.
Proof.
  induction l as [|x l IH]; simpl; [reflexivity|].
  rewrite sort_insert_perm. apply perm_skip, IH.
Qed.

Lemma sort_insert_desc {A} (key : A -> N) x l :
  StronglySorted (newer_or_equal key) l ->
  StronglySorted (newer_or_equal key) (sort_insert key (-1) x l).
Proof.
  induction l as [|y l IH]; simpl; intros Hs.
  - constructor; constructor.
  - apply StronglySorted_inv in Hs as [Hl Hy].
    unfold sort_leb. change (-1 <? 0)%Z with true. cbv iota.
    destruct (N.leb_spec (key y) (key x)) as [Hle|Hlt].
    + constructor.
      * constructor; assumption.
      * constructor; [exact Hle|].
        eapply Forall_impl; [exact Hy|].
        intros z Hz. unfold newer_or_equal in *. lia.
    + constructor; [apply IH, Hl|].
      eapply Permutation_Forall; [symmetry; apply sort_insert_perm|].
      constructor; [|exact Hy]. unfold newer_or_equal. lia.
Qed.

Lemma sort_by_desc {A} (key : A -> N) l :
  StronglySorted (newer_or_equal key) (sort_by key (-1) l).
Proof.
  induction l as [|x l IH]; simpl; [constructor|].
  apply sort_insert_desc, IH.
Qed.

Lemma StronglySorted_firstn {A} (R : A -> A -> Prop) n l :
  StronglySorted R l -> StronglySorted R (firstn n l).
Proof.
  revert l. induction n as [|n IH]; intros [|x l] Hs; simpl;
    try constructor.
  - apply IH. apply StronglySorted_inv in Hs as [Hs _]. exact Hs.
  - apply StronglySorted_inv in Hs as [_ Hx].
    rewrite List.Forall_forall in *. intros y Hy. apply Hx.
    rewrite <- (firstn_skipn n l). apply in_or_app. left. exact Hy.
Qed.

Lemma StronglySorted_app_inv {A} (R : A -> A -> Prop) l1 l2 :
  StronglySorted R (l1 ++ l2) ->
  forall x y, In x l1 -> In y l2 -> R x y.
Proof.
  induction l1 as [|a l1 IH]; simpl; intros Hs x y Hx Hy; [contradiction|].
  apply StronglySorted_inv in Hs as [Hs Ha].
  destruct Hx as [->|Hx].
  - rewrite List.Forall_forall in Ha. apply Ha, in_or_app. right. exact Hy.
  - apply (IH Hs x y Hx Hy).
Qed.

Lemma populate_author_joined us p :
  author_doc (populate_author us p) = joined_author us p.
Proof.
  unfold populate_author, joined_author. simpl.
  destruct (List.find _ us); reflexivity.
Qed.

Lemma map_doc_populate us ps : map doc (map (populate_author us) ps) = ps.
Proof.
  induction ps as [|p ps IH]; simpl; [reflexivity|]. now rewrite IH.
Qed.

Lemma list_posts_run (env : Env) (req : Request) (w : World) :
  app_get_post env req w
  = (Ok (res_json
           (JPosts
              (limit 20
                 (sort_by (fun x => createdAt (doc x)) (-1)
                    (map (populate_author (users w)) (posts w)))))), w).
Proof. reflexivity. Qed.

Lemma find_map_same_id (o : ObjectId) (f : Post -> Post) (ps : list Post) :
  (forall q, p_id (f q) = p_id q) ->
  List.find (fun q => String.eqb (p_id q) o) (map f ps)
  = option_map f (List.find (fun q => String.eqb (p_id q) o) ps).
Proof.
  intros Hid. induction ps as [|q ps IH]; simpl; [reflexivity|].
  rewrite Hid. destruct (String.eqb (p_id q) o); [reflexivity|exact IH].
Qed.

Lemma find_filter_out (o : ObjectId) (ps : list Post) :
  List.find (fun q => String.eqb (p_id q) o)
    (List.filter (fun q => negb (String.eqb (p_id q) o)) ps) = None.
Proof.
  induction ps as [|q ps IH]; simpl; [reflexivity|].
  destruct (String.eqb (p_id q) o) eqn:E; simpl; [exact IH|].
  rewrite E. exact IH.
Qed.

Lemma Forall2_map_r_same {A} (R : A -> A -> Prop) (f : A -> A) (l : list A) :
  (forall x, R x (f x)) -> Forall2 R l (map f l).
Proof.
  intros H. induction l as [|x l IH]; simpl; constructor; auto.
Qed.

Lemma findById_after_update (env : Env) (req : Request) (w : World) (p : Post) :
  fst (Post_findById (body_id req) w) = Ok (Some p) ->
  fst (Post_findById (body_id req) (world_after_update env req p w))
  = Ok (Some (updated_post env req p p)).
Proof.
  intros Hfind. pose proof (findById_id _ _ _ Hfind) as Hcast.
  apply findById_inv in Hfind as (o & Hcast' & Hfind).
  assert (o = p_id p) as -> by congruence.
  unfold Post_findById, world_after_update. rewrite Hcast. cbn [fst posts].
  rewrite find_map_same_id.
  - rewrite Hfind. simpl. rewrite String.eqb_refl. reflexivity.
  - intros q. destruct (String.eqb (p_id q) (p_id p)); reflexivity.
Qed.

Lemma findById_after_delete (req : Request) (w : World) (p : Post) :
  fst (Post_findById (params_id req) w) = Ok (Some p) ->
  fst (Post_findById (params_id req) (world_after_delete p w)) = Ok None.
Proof.
  intros Hfind. pose proof (findById_id _ _ _ Hfind) as Hcast.
  unfold Post_findById, world_after_delete. rewrite Hcast. cbn [fst posts].
  rewrite find_filter_out. reflexivity.
Qed.

Lemma disk_after_upload_other (w : World) (p newp data q : string) :
  q <> p -> q <> newp ->
  disk (after_upload w p newp data) !! q = disk w !! q.
Proof.
  intros Hp Hn. unfold after_upload. cbn [disk].
  rewrite lookup_insert_ne by congruence.
  rewrite lookup_delete_ne by congruence.
  rewrite lookup_insert_ne by congruence. reflexivity.
Qed.

Lemma cover_path_no_dot (env : Env) (u : Upload) :
  contains_char "." (up_originalname u) = false ->
  cover_path env u = upload_path env +:+ "." +:+ up_originalname u.
Proof.
  intros H. unfold cover_path. rewrite (split_no_sep _ _ H). reflexivity.
Qed.

Lemma joined_author_stored (us : list User) (p : Post) :
  (exists u, In u us /\ u_id u = author p) ->
  exists u, In u us /\ u_id u = author p
            /\ joined_author us p
               = Some {| ref_id := u_id u; ref_username := username u |}.
Proof.
  intros (u0 & Hin0 & Hu0). unfold joined_author.
  destruct (List.find (fun u => String.eqb (u_id u) (author p)) us)
    as [u|] eqn:E.
  - apply find_some in E as [Hin Hu]. apply String.eqb_eq in Hu.
    exists u. repeat split; assumption.
  - exfalso. apply (find_none _ _ E) in Hin0.
    apply String.eqb_neq in Hin0. contradiction.
Qed.

(** The three handlers that write always answer: no exception escapes. *)
Lemma put_always_responds (env : Env) (req : Request) (w : World) :
  exists r w', app_put_post env req w = (Ok r, w').
Proof.
  destruct (Js.truthy_opt (cookie_token req)) eqn:Htok.
  2:{ run. destruct (upload req); run; step Htok; eauto. }
  destruct (jwt_verify (default EmptyString (cookie_token req)) secret)
    as [info|] eqn:Hver.
  2:{ run. destruct (upload req); run; step Htok; step Hver; eauto. }
  destruct (fst (Post_findById (body_id req) w)) as [[p|]|e] eqn:Hfind.
  - destruct (String.eqb (c_id info) (author p)) eqn:Hauth.
    + apply String.eqb_eq in Hauth.
      rewrite (put_by_author env req w info p Htok Hver Hfind Hauth). eauto.
    + apply String.eqb_neq in Hauth.
      rewrite (put_by_non_author env req w info p Htok Hver Hfind Hauth).
      eauto.
  - revert Hfind. run.
    destruct (castObjectId (body_id req)) as [o|]; cbn [fst]; [|discriminate].
    intros [= Hfind].
    destruct (upload req); run; step Htok; step Hver;
      try step lookup_insert_eq; step Hfind; eauto.
  - revert Hfind. run.
    destruct (castObjectId (body_id req)) as [o|]; cbn [fst]; [discriminate|].
    intros _.
    destruct (upload req); run; step Htok; step Hver;
      try step lookup_insert_eq; eauto.
Qed.

Lemma delete_always_responds (env : Env) (req : Request) (w : World) :
  exists r w', app_delete_post_id env req w = (Ok r, w').
Proof.
  destruct (Js.truthy_opt (cookie_token req)) eqn:Htok.
  2:{ run. step Htok. eauto. }
  destruct (jwt_verify (default EmptyString (cookie_token req)) secret)
    as [info|] eqn:Hver.
  2:{ run. step Htok. step Hver. eauto. }
  destruct (fst (Post_findById (params_id req) w)) as [[p|]|e] eqn:Hfind.
  - destruct (String.eqb (c_id info) (author p)) eqn:Hauth.
    + apply String.eqb_eq in Hauth.
      rewrite (delete_by_author env req w info p Htok Hver Hfind Hauth). eauto.
    + apply String.eqb_neq in Hauth.
      rewrite (delete_by_non_author env req w info p Htok Hver Hfind Hauth).
      eauto.
  - revert Hfind. run.
    destruct (castObjectId (params_id req)) as [o|]; cbn [fst]; [|discriminate].
    intros [= Hfind]. step Htok. step Hver. step Hfind. eauto.
  - revert Hfind. run.
    destruct (castObjectId (params_id req)) as [o|]; cbn [fst]; [discriminate|].
    intros _. step Htok. step Hver. eauto.
Qed.

Lemma create_always_responds (env : Env) (req : Request) (w : World) :
  exists r w', app_post_post env req w = (Ok r, w').
Proof.
  destruct (Js.truthy_opt (cookie_token req)) eqn:Htok.
  2:{ rewrite (create_without_token env req w Htok). eauto. }
  destruct (jwt_verify (default EmptyString (cookie_token req)) secret)
    as [info|] eqn:Hver.
  2:{ rewrite (create_with_invalid_token env req w Htok Hver). eauto. }
  destruct (upload req) as [u|] eqn:Hup.
  2:{ rewrite (create_without_file env req w info Htok Hver Hup). eauto. }
  destruct (castObjectId (c_id info)) as [a|] eqn:Hcast.
  2:{ rewrite (create_failure env req w info u Htok Hver Hup (or_introl Hcast)).
      eauto. }
  destruct (existsb (fun p => String.eqb (p_id p) (new_oid env)) (posts w))
    eqn:Hfresh.
  - rewrite (create_failure env req w info u Htok Hver Hup (or_intror Hfresh)).
    eauto.
  - rewrite (create_by_user env req w info u a Htok Hver Hup Hcast Hfresh).
    eauto.
Qed.

(** ** The claims *)

(** C1: an update or a delete that carries a valid session token whose
    identity id is not the stored author id of the targeted, existing post
    is answered 403 and leaves the post collection as it was: the update
    only leaves its upload on disk, the delete changes nothing at all. *)
Theorem non_author_is_forbidden
  (env : Env) (req : Request) (w : World) (info : Claims) (p : Post) :
  Js.truthy_opt (cookie_token req) = true ->
  jwt_verify (default EmptyString (cookie_token req)) secret = Some info ->
  c_id info <> author p ->
  (fst (Post_findById (body_id req) w) = Ok (Some p) ->
   exists w',
     app_put_post env req w
     = (Ok (res_status_json 403 (JStr "You are not the author")), w')
     /\ posts w' = posts w /\ users w' = users w)
  /\
  (fst (Post_findById (params_id req) w) = Ok (Some p) ->
   app_delete_post_id env req w
   = (Ok (res_status_json 403 (JStr "You are not the author")), w)).
Proof.
  intros Htok Hver Hne. split; intros Hfind.
  - exists (world_after_upload env req w). split; [|split].
    + apply (put_by_non_author env req w info p); assumption.
    + apply posts_after_upload.
    + apply users_after_upload.
  - apply (delete_by_non_author env req w info p); assumption.
Qed.

(** C2: a successful update of an existing post leaves its author field
    as it was; in the whole collection every document keeps its id, author
    and creation timestamp, so only title, summary, content and cover are
    written, and the users are untouched. *)
Theorem update_keeps_author
  (env : Env) (req : Request) (w w' : World) (r : Response) (p : Post) :
  fst (Post_findById (body_id req) w) = Ok (Some p) ->
  app_put_post env req w = (Ok r, w') ->
  status r = 200%nat ->
  (exists p', fst (Post_findById (body_id req) w') = Ok (Some p')
              /\ author p' = author p
              /\ p_id p' = p_id p
              /\ createdAt p' = createdAt p)
  /\ Forall2 (fun q q' => p_id q' = p_id q /\ author q' = author q
                          /\ createdAt q' = createdAt q)
       (posts w) (posts w')
  /\ users w' = users w.
Proof.
  intros Hfind Hrun Hst.
  destruct (put_success_inv env req w w' r Hrun Hst)
    as (info & p0 & _ & _ & Hfind0 & _ & _ & ->).
  assert (p0 = p) as -> by congruence.
  split; [|split].
  - exists (updated_post env req p p). split.
    + apply findById_after_update, Hfind.
    + repeat split.
  - unfold world_after_update. cbn [posts].
    apply Forall2_map_r_same. intros q.
    destruct (String.eqb (p_id q) (p_id p)); repeat split.
  - reflexivity.
Qed.

(** C7: after a successful update the stored post carries the title,
    summary and content of the request; its cover is the renamed path of
    the uploaded file when the request uploads one and the previous cover
    otherwise; the posts with another id are still stored as they were. *)
Theorem update_replaces_fields
  (env : Env) (req : Request) (w w' : World) (r : Response) (p : Post) :
  fst (Post_findById (body_id req) w) = Ok (Some p) ->
  app_put_post env req w = (Ok r, w') ->
  status r = 200%nat ->
  (exists p', fst (Post_findById (body_id req) w') = Ok (Some p')
              /\ title p' = body_title req
              /\ summary p' = body_summary req
              /\ content p' = body_content req
              /\ cover p' = match upload req with
                            | Some u => cover_path env u
                            | None => cover p
                            end)
  /\ (forall q, In q (posts w) -> p_id q <> p_id p -> In q (posts w')).
Proof.
  intros Hfind Hrun Hst.
  destruct (put_success_inv env req w w' r Hrun Hst)
    as (info & p0 & _ & _ & Hfind0 & _ & _ & ->).
  assert (p0 = p) as -> by congruence.
  split.
  - exists (updated_post env req p p). split.
    + apply findById_after_update, Hfind.
    + repeat split.
  - intros q Hin Hne. unfold world_after_update. cbn [posts].
    apply in_map_iff. exists q. split; [|exact Hin].
    apply String.eqb_neq in Hne. rewrite Hne. reflexivity.
Qed.

(** C10: a successful update that uploads a new cover touches no file
    but its own upload: every path other than the temp path and the renamed
    path keeps what it held, so the file of the previous cover (whose path
    the fresh random name keeps apart from both) remains on disk; the new
    file sits at the renamed path and the post's cover field points there. *)
Theorem update_keeps_old_cover_file
  (env : Env) (req : Request) (w w' : World) (r : Response) (p : Post)
  (u : Upload) :
  fst (Post_findById (body_id req) w) = Ok (Some p) ->
  upload req = Some u ->
  app_put_post env req w = (Ok r, w') ->
  status r = 200%nat ->
  (forall q, q <> upload_path env -> q <> cover_path env u ->
             disk w' !! q = disk w !! q)
  /\ (cover p <> upload_path env -> cover p <> cover_path env u ->
      disk w' !! cover p = disk w !! cover p)
  /\ disk w' !! cover_path env u = Some (up_data u)
  /\ (exists p', fst (Post_findById (body_id req) w') = Ok (Some p')
                 /\ cover p' = cover_path env u).
Proof.
  intros Hfind Hup Hrun Hst.
  destruct (put_success_inv env req w w' r Hrun Hst)
    as (info & p0 & _ & _ & Hfind0 & _ & _ & ->).
  assert (p0 = p) as -> by congruence.
  assert (Hframe : forall q, q <> upload_path env -> q <> cover_path env u ->
                     disk (world_after_update env req p w) !! q = disk w !! q).
  { intros q H1 H2. unfold world_after_update, world_after_upload.
    rewrite Hup. cbn [disk]. apply disk_after_upload_other; assumption. }
  split; [exact Hframe|]. split; [apply Hframe|]. split.
  - unfold world_after_update, world_after_upload, after_upload.
    rewrite Hup. cbn [disk]. apply lookup_insert_eq.
  - exists (updated_post env req p p). split.
    + apply findById_after_update, Hfind.
    + unfold updated_post. cbn [cover]. rewrite Hup. reflexivity.
Qed.

(** C3: whatever the collections hold, the list endpoint answers 200 with
    at most 20 items, newest first; each item is a stored post with the id
    and username of the user its author field refers to joined in (so every
    item carries its author's username as soon as every author is a stored
    user); the stored posts left out are no newer than any item returned;
    the world is unchanged. *)
Theorem list_is_newest_first_at_most_20
  (env : Env) (req : Request) (w : World) :
  exists l,
    app_get_post env req w = (Ok (res_json (JPosts l)), w)
    /\ (length l <= 20)%nat
    /\ StronglySorted (newer_or_equal (fun x => createdAt (doc x))) l
    /\ (forall x, In x l ->
          In (doc x) (posts w)
          /\ author_doc x = joined_author (users w) (doc x))
    /\ (authors_stored w ->
        forall x, In x l ->
          exists u, In u (users w) /\ u_id u = author (doc x)
                    /\ author_doc x
                       = Some {| ref_id := u_id u;
                                 ref_username := username u |})
    /\ (exists rest,
          Permutation (map doc l ++ rest) (posts w)
          /\ forall x q, In x l -> In q rest ->
               (createdAt q <= createdAt (doc x))%N).
Proof.
  set (all := sort_by (fun x => createdAt (doc x)) (-1)
                (map (populate_author (users w)) (posts w))).
  assert (Hperm : Permutation all (map (populate_author (users w)) (posts w)))
    by apply sort_by_perm.
  assert (Hsorted : StronglySorted
                      (newer_or_equal (fun x => createdAt (doc x))) all)
    by apply sort_by_desc.
  exists (limit 20 all). split; [apply list_posts_run|].
  split; [apply firstn_le_length|].
  split; [apply StronglySorted_firstn, Hsorted|].
  assert (Hitem : forall x, In x (limit 20 all) ->
            In (doc x) (posts w)
            /\ author_doc x = joined_author (users w) (doc x)).
  { intros x Hx.
    assert (Hin : In x (map (populate_author (users w)) (posts w))).
    { eapply Permutation_in; [exact Hperm|].
      rewrite <- (firstn_skipn 20 all). apply in_or_app. left. exact Hx. }
    apply in_map_iff in Hin as (q & <- & Hq). split.
    - exact Hq.
    - apply populate_author_joined. }
  split; [exact Hitem|]. split.
  - intros Hstored x Hx. destruct (Hitem x Hx) as [Hin ->].
    apply joined_author_stored, Hstored, Hin.
  - exists (map doc (skipn 20 all)). split.
    + unfold limit. rewrite <- map_app, firstn_skipn.
      rewrite <- (map_doc_populate (users w) (posts w)).
      apply Permutation_map, Hperm.
    + intros x q Hx Hq. apply in_map_iff in Hq as (y & <- & Hy).
      rewrite <- (firstn_skipn 20 all) in Hsorted.
      apply (StronglySorted_app_inv _ _ _ Hsorted x y Hx Hy).
Qed.

(** C4: a login whose username is unknown and a login whose password
    does not match the stored hash get the very same answer, 400 with the
    text "wrong credentials", which sets no cookie; the world is
    unchanged. *)
Theorem login_failure_is_generic
  (env : Env) (req : Request) (w : World) :
  fst (User_findOne (body_username req) w) = Ok None
  \/ (exists u, fst (User_findOne (body_username req) w) = Ok (Some u)
                /\ bcrypt_compareSync (body_password req) (password u) = false) ->
  app_post_login env req w
  = (Ok {| status := 400; body := JStr "wrong credentials"; set_cookie := [] |},
     w).
Proof.
  intros [Hnone|(u & Hu & Hpw)].
  - apply login_unknown_user, Hnone.
  - apply (login_wrong_password env req w u Hu Hpw).
Qed.

(** C5, amended: a create request without a valid session cookie creates
    no post; it is answered 401 when the cookie is missing or empty and
    403 when the token does not verify. *)
Theorem create_without_session_is_rejected
  (env : Env) (req : Request) (w : World) :
  (Js.truthy_opt (cookie_token req) = false ->
   app_post_post env req w
   = (Ok (res_status_json 401 (JError "No token provided")),
      world_after_middleware env req w))
  /\ (Js.truthy_opt (cookie_token req) = true ->
      jwt_verify (default EmptyString (cookie_token req)) secret = None ->
      app_post_post env req w
      = (Ok (res_status_json 403 (JError "Invalid token")),
         world_after_middleware env req w))
  /\ posts (world_after_middleware env req w) = posts w.
Proof.
  split; [|split].
  - apply create_without_token.
  - apply create_with_invalid_token.
  - apply posts_after_middleware.
Qed.

(** C6: a successful delete removes the cover file of the post from disk
    (when the cover field is set; no other file is touched) and then
    removes the post record: the record is deleted in the world the unlink
    left, after which the id finds nothing and every other post is still
    stored. *)
Theorem delete_removes_cover_then_record
  (env : Env) (req : Request) (w w' : World) (r : Response) (p : Post) :
  fst (Post_findById (params_id req) w) = Ok (Some p) ->
  app_delete_post_id env req w = (Ok r, w') ->
  status r = 200%nat ->
  (cover p <> EmptyString -> disk w' !! cover p = None)
  /\ (forall q, q <> cover p -> disk w' !! q = disk w !! q)
  /\ Post_findByIdAndDelete (params_id req) (world_after_unlink p w)
     = (Ok tt, w')
  /\ fst (Post_findById (params_id req) w') = Ok None
  /\ (forall q, In q (posts w') <-> In q (posts w) /\ p_id q <> p_id p)
  /\ users w' = users w.
Proof.
  intros Hfind Hrun Hst.
  destruct (delete_success_inv env req w w' r Hrun Hst)
    as (info & p0 & _ & _ & Hfind0 & _ & _ & ->).
  assert (p0 = p) as -> by congruence.
  split; [|split; [|split; [|split; [|split]]]].
  - intros Hcover. unfold world_after_delete, world_after_unlink. cbn [disk].
    destruct (cover p); [congruence|]. apply lookup_delete_eq.
  - intros q Hq. unfold world_after_delete, world_after_unlink. cbn [disk].
    destruct (Js.truthy (cover p)); [|reflexivity].
    apply lookup_delete_ne. congruence.
  - unfold Post_findByIdAndDelete.
    rewrite (findById_id _ _ _ Hfind). reflexivity.
  - apply findById_after_delete, Hfind.
  - intros q. unfold world_after_delete. cbn [posts].
    rewrite List.filter_In, negb_true_iff, String.eqb_neq. reflexivity.
  - reflexivity.
Qed.

(** C8: registering a username no stored user has (under an id the store
    has not used) answers 200 with the created user record, whose password
    is the hash of the given one, and appends that record to the users;
    as long as the record is stored, any further registration of the same
    username is answered 400 and changes nothing. *)
Theorem register_twice_fails
  (env : Env) (req : Request) (w : World) :
  ~ username_taken (body_username req) w ->
  user_id_free (new_oid env) w ->
  app_post_register env req w
  = (Ok (res_json (JUser (registered_user env req))),
     {| users := users w ++ [registered_user env req];
        posts := posts w; disk := disk w |})
  /\ password (registered_user env req)
     = bcrypt_hashSync (body_password req) salt
  /\ forall (env2 : Env) (req2 : Request) (w2 : World),
       body_username req2 = body_username req ->
       In (registered_user env req) (users w2) ->
       app_post_register env2 req2 w2
       = (Ok (res_status_json 400 (JExn DuplicateKey)), w2).
Proof.
  intros Hfree Hid. split; [|split].
  - apply register_new; assumption.
  - reflexivity.
  - intros env2 req2 w2 Hname Hin. apply register_taken.
    exists (registered_user env req). split; [exact Hin|].
    symmetry. exact Hname.
Qed.

(** C9: when the original name of the uploaded file has no dot, the
    extension the handlers compute is the whole name: a successful create
    stores a post, and a successful update leaves the targeted post, whose
    cover is the temp path, a dot, and the whole original name. *)
Theorem dotless_name_is_the_extension
  (env : Env) (req : Request) (u : Upload) :
  upload req = Some u ->
  contains_char "." (up_originalname u) = false ->
  (forall w w' r,
     app_post_post env req w = (Ok r, w') -> status r = 200%nat ->
     exists p', body r = JPost p' /\ In p' (posts w')
                /\ cover p' = upload_path env +:+ "." +:+ up_originalname u)
  /\ (forall w w' r,
        app_put_post env req w = (Ok r, w') -> status r = 200%nat ->
        exists p', fst (Post_findById (body_id req) w') = Ok (Some p')
                   /\ cover p' = upload_path env +:+ "." +:+ up_originalname u).
Proof.
  intros Hup Hdot. split; intros w w' r Hrun Hst.
  - destruct (create_success_inv env req w w' r Hrun Hst)
      as (info & u0 & a & _ & _ & Hup0 & _ & -> & ->).
    assert (u0 = u) as -> by congruence.
    exists (created_post env req u a). split; [reflexivity|]. split.
    + unfold world_after_create. cbn [posts]. apply in_or_app. right.
      left. reflexivity.
    + apply cover_path_no_dot, Hdot.
  - destruct (put_success_inv env req w w' r Hrun Hst)
      as (info & p & _ & _ & Hfind & _ & _ & ->).
    exists (updated_post env req p p). split.
    + apply findById_after_update, Hfind.
    + unfold updated_post. cbn [cover]. rewrite Hup.
      apply cover_path_no_dot, Hdot.
Qed.

(** ** Every branch of the writing handlers *)

Lemma put_cases (env : Env) (req : Request) (w : World) :
  (Js.truthy_opt (cookie_token req) = false
   /\ app_put_post env req w
      = (Ok (res_status_json 401 (JError "No token provided")),
         world_after_middleware env req w))
  \/ (Js.truthy_opt (cookie_token req) = true
      /\ jwt_verify (default EmptyString (cookie_token req)) secret = None
      /\ app_put_post env req w
         = (Ok (res_status_json 403 (JError "Invalid token")),
            world_after_middleware env req w))
  \/ (exists info, session req info
      /\ ((exists e, fst (Post_findById (body_id req) w) = Throw e
           /\ app_put_post env req w
              = (Ok (res_status_json 500 (JError "Failed to update post")),
                 world_after_upload env req w))
          \/ (fst (Post_findById (body_id req) w) = Ok None
              /\ app_put_post env req w
                 = (Ok (res_status_json 404 (JStr "Post not found")),
                    world_after_upload env req w))
          \/ (exists p, fst (Post_findById (body_id req) w) = Ok (Some p)
              /\ c_id info <> author p
              /\ app_put_post env req w
                 = (Ok (res_status_json 403 (JStr "You are not the author")),
                    world_after_upload env req w))
          \/ (exists p, fst (Post_findById (body_id req) w) = Ok (Some p)
              /\ c_id info = author p
              /\ app_put_post env req w
                 = (Ok (res_json (JPost p)), world_after_update env req p w)))).
Proof.
  destruct (Js.truthy_opt (cookie_token req)) eqn:Htok.
  2:{ left. split; [reflexivity|]. unfold world_after_middleware, upload_path.
      run. destruct (upload req); run; step Htok; reflexivity. }
  right.
  destruct (jwt_verify (default EmptyString (cookie_token req)) secret)
    as [info|] eqn:Hver.
  2:{ left. split; [reflexivity|]. split; [reflexivity|].
      unfold world_after_middleware, upload_path.
      run. destruct (upload req); run; step Htok; step Hver; reflexivity. }
  right. exists info. split; [split; assumption|].
  destruct (fst (Post_findById (body_id req) w)) as [[p|]|e] eqn:Hfind.
  - destruct (String.eqb (c_id info) (author p)) eqn:Hauth.
    + apply String.eqb_eq in Hauth. right. right. right. exists p.
      split; [reflexivity|]. split; [exact Hauth|].
      apply (put_by_author env req w info p); assumption.
    + apply String.eqb_neq in Hauth. right. right. left. exists p.
      split; [reflexivity|]. split; [exact Hauth|].
      apply (put_by_non_author env req w info p); assumption.
  - right. left. split; [reflexivity|].
    revert Hfind. unfold world_after_upload, after_upload, cover_path, upload_path.
    run.
    destruct (castObjectId (body_id req)) as [o|]; cbn [fst]; [|discriminate].
    intros [= Hfind].
    destruct (upload req); run; step Htok; step Hver;
      try step lookup_insert_eq; step Hfind; reflexivity.
  - left. exists e. split; [reflexivity|].
    revert Hfind. unfold world_after_upload, after_upload, cover_path, upload_path.
    run.
    destruct (castObjectId (body_id req)) as [o|]; cbn [fst]; [discriminate|].
    intros _.
    destruct (upload req); run; step Htok; step Hver;
      try step lookup_insert_eq; reflexivity.
Qed.

Lemma delete_cases (env : Env) (req : Request) (w : World) :
  (Js.truthy_opt (cookie_token req) = false
   /\ app_delete_post_id env req w
      = (Ok (res_status_json 401 (JError "No token provided")), w))
  \/ (Js.truthy_opt (cookie_token req) = true
      /\ jwt_verify (default EmptyString (cookie_token req)) secret = None
      /\ app_delete_post_id env req w
         = (Ok (res_status_json 403 (JError "Invalid token")), w))
  \/ (exists info, session req info
      /\ ((exists e, fst (Post_findById (params_id req) w) = Throw e
           /\ app_delete_post_id env req w
              = (Ok (res_status_json 500 (JStr "Failed to delete post")), w))
          \/ (fst (Post_findById (params_id req) w) = Ok None
              /\ app_delete_post_id env req w
                 = (Ok (res_status_json 404 (JStr "Post not found")), w))
          \/ (exists p, fst (Post_findById (params_id req) w) = Ok (Some p)
              /\ c_id info <> author p
              /\ app_delete_post_id env req w
                 = (Ok (res_status_json 403 (JStr "You are not the author")),
                    w))
          \/ (exists p, fst (Post_findById (params_id req) w) = Ok (Some p)
              /\ c_id info = author p
              /\ app_delete_post_id env req w
                 = (Ok (res_json JSuccess), world_after_delete p w)))).
Proof.
  destruct (Js.truthy_opt (cookie_token req)) eqn:Htok.
  2:{ left. split; [reflexivity|]. run. step Htok. reflexivity. }
  right.
  destruct (jwt_verify (default EmptyString (cookie_token req)) secret)
    as [info|] eqn:Hver.
  2:{ left. split; [reflexivity|]. split; [reflexivity|].
      run. step Htok. step Hver. reflexivity. }
  right. exists info. split; [split; assumption|].
  destruct (fst (Post_findById (params_id req) w)) as [[p|]|e] eqn:Hfind.
  - destruct (String.eqb (c_id info) (author p)) eqn:Hauth.
    + apply String.eqb_eq in Hauth. right. right. right. exists p.
      split; [reflexivity|]. split; [exact Hauth|].
      apply (delete_by_author env req w info p); assumption.
    + apply String.eqb_neq in Hauth. right. right. left. exists p.
      split; [reflexivity|]. split; [exact Hauth|].
      apply (delete_by_non_author env req w info p); assumption.
  - right. left. split; [reflexivity|].
    revert Hfind. run.
    destruct (castObjectId (params_id req)) as [o|]; cbn [fst]; [|discriminate].
    intros [= Hfind]. step Htok. step Hver. step Hfind. reflexivity.
  - left. exists e. split; [reflexivity|].
    revert Hfind. run.
    destruct (castObjectId (params_id req)) as [o|]; cbn [fst]; [discriminate|].
    intros _. step Htok. step Hver. reflexivity.
Qed.

Lemma create_cases (env : Env) (req : Request) (w : World) :
  (Js.truthy_opt (cookie_token req) = false
   /\ app_post_post env req w
      = (Ok (res_status_json 401 (JError "No token provided")),
         world_after_middleware env req w))
  \/ (Js.truthy_opt (cookie_token req) = true
      /\ jwt_verify (default EmptyString (cookie_token req)) secret = None
      /\ app_post_post env req w
         = (Ok (res_status_json 403 (JError "Invalid token")),
            world_after_middleware env req w))
  \/ (exists info, session req info
      /\ ((upload req = None
           /\ app_post_post env req w
              = (Ok (res_status_json 400 (JError "No file uploaded")), w))
          \/ (exists u, upload req = Some u
              /\ (castObjectId (c_id info) = None
                  \/ existsb (fun p => String.eqb (p_id p) (new_oid env))
                       (posts w) = true)
              /\ app_post_post env req w
                 = (Ok (res_status_json 500 (JError "Failed to create post")),
                    world_after_upload env req w))
          \/ (exists u a, upload req = Some u
              /\ castObjectId (c_id info) = Some a
              /\ existsb (fun p => String.eqb (p_id p) (new_oid env))
                   (posts w) = false
              /\ app_post_post env req w
                 = (Ok (res_json (JPost (created_post env req u a))),
                    world_after_create env req u a w)))).
Proof.
  destruct (Js.truthy_opt (cookie_token req)) eqn:Htok.
  2:{ left. split; [reflexivity|]. apply create_without_token, Htok. }
  right.
  destruct (jwt_verify (default EmptyString (cookie_token req)) secret)
    as [info|] eqn:Hver.
  2:{ left. split; [reflexivity|]. split; [reflexivity|].
      apply create_with_invalid_token; assumption. }
  right. exists info. split; [split; assumption|].
  destruct (upload req) as [u|] eqn:Hup.
  2:{ left. split; [reflexivity|].
      apply (create_without_file env req w info); assumption. }
  right.
  destruct (castObjectId (c_id info)) as [a|] eqn:Hcast.
  2:{ left. exists u. split; [reflexivity|]. split; [left; reflexivity|].
      apply (create_failure env req w info u Htok Hver Hup (or_introl Hcast)). }
  destruct (existsb (fun p => String.eqb (p_id p) (new_oid env)) (posts w))
    eqn:Hfresh.
  - left. exists u. split; [reflexivity|]. split; [right; reflexivity|].
    apply (create_failure env req w info u Htok Hver Hup (or_intror Hfresh)).
  - right. exists u, a. split; [reflexivity|]. split; [reflexivity|].
    split; [reflexivity|].
    apply (create_by_user env req w info u a); assumption.
Qed.

(** ** What a request can do to the collections *)

Lemma NoDup_map_snoc {A B} (f : A -> B) (l : list A) (x : A) :
  List.NoDup (map f l) -> ~ In (f x) (map f l) -> List.NoDup (map f (l ++ [x])%list).
Proof.
  induction l as [|y l IH]; simpl; intros Hnd Hnin.
  - constructor; [intros []|constructor].
  - apply List.NoDup_cons_iff in Hnd as [Hy Hnd]. apply List.NoDup_cons_iff. split.
    + rewrite map_app, in_app_iff. simpl. intros [H|[H|[]]].
      * apply Hy, H.
      * apply Hnin. left. symmetry. exact H.
    + apply IH; [exact Hnd|]. intros H. apply Hnin. right. exact H.
Qed.

Lemma NoDup_map_filter {A B} (f : A -> B) (g : A -> bool) (l : list A) :
  List.NoDup (map f l) -> List.NoDup (map f (List.filter g l)).
Proof.
  induction l as [|y l IH]; simpl; intros Hnd; [constructor|].
  apply List.NoDup_cons_iff in Hnd as [Hy Hnd].
  destruct (g y); simpl; [|apply IH, Hnd].
  apply List.NoDup_cons_iff. split; [|apply IH, Hnd].
  intros H. apply Hy. apply in_map_iff in H as (z & Hz & Hin).
  apply in_map_iff. exists z. split; [exact Hz|].
  apply List.filter_In in Hin as [Hin _]. exact Hin.
Qed.

Lemma NoDup_map_inj {A B} (f : A -> B) (l : list A) (a b : A) :
  List.NoDup (map f l) -> In a l -> In b l -> f a = f b -> a = b.
Proof.
  induction l as [|y l IH]; simpl; intros Hnd Ha Hb Hab; [contradiction|].
  apply List.NoDup_cons_iff in Hnd as [Hy Hnd].
  destruct Ha as [->|Ha], Hb as [->|Hb].
  - reflexivity.
  - exfalso. apply Hy. rewrite Hab. apply in_map, Hb.
  - exfalso. apply Hy. rewrite <- Hab. apply in_map, Ha.
  - apply IH; assumption.
Qed.

Lemma existsb_id_false (o : ObjectId) (ps : list Post) :
  existsb (fun p => String.eqb (p_id p) o) ps = false ->
  ~ In o (map p_id ps).
Proof.
  intros H Hin. apply in_map_iff in Hin as (p & Hp & Hin).
  assert (existsb (fun p => String.eqb (p_id p) o) ps = true).
  { apply existsb_exists. exists p. split; [exact Hin|].
    apply String.eqb_eq, Hp. }
  congruence.
Qed.

Lemma updated_ids (env : Env) (req : Request) (p : Post) (ps : list Post) :
  map p_id (map (fun q => if String.eqb (p_id q) (p_id p)
                          then updated_post env req p q else q) ps)
  = map p_id ps.
Proof.
  induction ps as [|q ps IH]; simpl; [reflexivity|]. rewrite IH.
  destruct (String.eqb (p_id q) (p_id p)); reflexivity.
Qed.

Lemma findById_stored (id : string) (w : World) (p : Post) :
  fst (Post_findById id w) = Ok (Some p) -> In p (posts w).
Proof.
  intros H. apply findById_inv in H as (o & _ & Hfind).
  apply find_some in Hfind as [Hin _]. exact Hin.
Qed.

(** What one request does to the users and to the posts, route by route:
    the users change only by a registration that appends, the posts only
    by a create that appends, an update by the author or a delete by the
    author. *)
Lemma handle_effect (rt : Route) (env : Env) (req : Request) (w : World) :
  exists r w',
    app_handle rt env req w = (Ok r, w')
    /\ (users w' = users w
        \/ (rt = POST_register
            /\ ~ username_taken (body_username req) w
            /\ user_id_free (new_oid env) w
            /\ users w' = (users w ++ [registered_user env req])%list))
    /\ (posts w' = posts w
        \/ (rt = POST_post
            /\ exists info u a,
                 session req info
                 /\ castObjectId (c_id info) = Some a
                 /\ ~ In (new_oid env) (map p_id (posts w))
                 /\ posts w' = (posts w ++ [created_post env req u a])%list)
        \/ (rt = PUT_post
            /\ exists info p,
                 session req info /\ c_id info = author p
                 /\ In p (posts w)
                 /\ posts w' = posts (world_after_update env req p w))
        \/ (rt = DELETE_post_id
            /\ exists info p,
                 session req info /\ c_id info = author p
                 /\ In p (posts w)
                 /\ posts w' = posts (world_after_delete p w))).
Proof.
  destruct rt; cbn [app_handle].
  - (* register *)
    destruct (existsb
                (fun u => String.eqb (username u) (body_username req)
                          || String.eqb (u_id u) (new_oid env)) (users w))
      eqn:E.
    + exists (res_status_json 400 (JExn DuplicateKey)), w.
      split; [run; step E; reflexivity|]. split; left; reflexivity.
    + assert (Hfree : ~ username_taken (body_username req) w).
      { intros (u & Hin & Hu).
        assert (existsb
                  (fun u => String.eqb (username u) (body_username req)
                            || String.eqb (u_id u) (new_oid env)) (users w)
                = true); [|congruence].
        apply existsb_exists. exists u. split; [exact Hin|].
        apply orb_true_iff. left. apply String.eqb_eq, Hu. }
      assert (Hid : user_id_free (new_oid env) w).
      { intros u Hin Hu.
        assert (existsb
                  (fun u => String.eqb (username u) (body_username req)
                            || String.eqb (u_id u) (new_oid env)) (users w)
                = true); [|congruence].
        apply existsb_exists. exists u. split; [exact Hin|].
        apply orb_true_iff. right. apply String.eqb_eq, Hu. }
      eexists _, _. split; [apply register_new; assumption|].
      split; [right|left; reflexivity].
      repeat split; assumption.
  - (* login *)
    unfold app_post_login, try_catch, bind. rewrite findOne_eq.
    destruct (fst (User_findOne (body_username req) w)) as [[u|]|e];
      cbv zeta;
      try destruct (bcrypt_compareSync (body_password req) (password u));
      eexists _, w; (split; [reflexivity|split; left; reflexivity]).
  - (* profile *)
    unfold app_get_profile.
    destruct (Js.truthy_opt (cookie_token req)); cbn [negb];
      try destruct (jwt_verify (default EmptyString (cookie_token req)) secret);
      eexists _, w; (split; [reflexivity|split; left; reflexivity]).
  - (* logout *)
    eexists _, w. split; [reflexivity|]. split; left; reflexivity.
  - (* create *)
    destruct (create_cases env req w)
      as [[_ H]|[(_ & _ & H)|(info & Hs & [[_ H]|[(u & _ & _ & H)|
            (u & a & Hup & Hcast & Hfresh & H)]])]];
      rewrite H; eexists _, _; (split; [reflexivity|]).
    + rewrite users_after_middleware, posts_after_middleware.
      split; left; reflexivity.
    + rewrite users_after_middleware, posts_after_middleware.
      split; left; reflexivity.
    + split; left; reflexivity.
    + rewrite users_after_upload, posts_after_upload.
      split; left; reflexivity.
    + split; [left; reflexivity|]. right. left. split; [reflexivity|].
      exists info, u, a. repeat split; try assumption; try apply Hs.
      apply existsb_id_false, Hfresh.
  - (* update *)
    destruct (put_cases env req w)
      as [[_ H]|[(_ & _ & H)|(info & Hs & [(e & _ & H)|[[_ H]|
            [(p & _ & _ & H)|(p & Hfind & Hauth & H)]]])]];
      rewrite H; eexists _, _; (split; [reflexivity|]).
    + rewrite users_after_middleware, posts_after_middleware.
      split; left; reflexivity.
    + rewrite users_after_middleware, posts_after_middleware.
      split; left; reflexivity.
    + rewrite users_after_upload, posts_after_upload.
      split; left; reflexivity.
    + rewrite users_after_upload, posts_after_upload.
      split; left; reflexivity.
    + rewrite users_after_upload, posts_after_upload.
      split; left; reflexivity.
    + split; [left; reflexivity|]. right. right. left.
      split; [reflexivity|]. exists info, p.
      repeat split; try assumption; try apply Hs.
      apply (findById_stored _ _ _ Hfind).
  - (* list *)
    eexists _, w. split; [apply list_posts_run|]. split; left; reflexivity.
  - (* read one *)
    unfold app_get_post_id, try_catch, bind, Post_findById, ret.
    destruct (castObjectId (params_id req));
      try destruct (List.find _ (posts w));
      eexists _, w; (split; [reflexivity|split; left; reflexivity]).
  - (* delete *)
    destruct (delete_cases env req w)
      as [[_ H]|[(_ & _ & H)|(info & Hs & [(e & _ & H)|[[_ H]|
            [(p & _ & _ & H)|(p & Hfind & Hauth & H)]]])]];
      rewrite H; eexists _, _; (split; [reflexivity|]);
      try (split; left; reflexivity).
    split; [left; reflexivity|]. right. right. right.
    split; [reflexivity|]. exists info, p.
    repeat split; try assumption; try apply Hs.
    apply (findById_stored _ _ _ Hfind).
Qed.

(** ** Properties of the whole routing table *)


(** X2: across any sequence of requests the stored users are kept, in
    order and unchanged: the user collection only grows at its end. *)
Theorem users_only_grow
  (reqs : list (Route * Env * Request)) (w : World) :
  exists added, users (serve reqs w) = (users w ++ added)%list.
Proof.
  revert w. induction reqs as [|[[rt env] req] reqs IH]; intros w.
  - exists []. simpl. rewrite app_nil_r. reflexivity.
  - simpl. destruct (handle_effect rt env req w) as (r & w' & H & Hu & _).
    rewrite H. cbn [snd]. destruct (IH w') as (added & ->).
    destruct Hu as [->|(_ & _ & _ & ->)].
    + exists added. reflexivity.
    + exists (registered_user env req :: added).
      rewrite <- app_assoc. reflexivity.
Qed.

(** X3: when no two stored documents share an id and no two users share
    a username, the same holds after any sequence of requests. *)
Theorem keys_stay_unique
  (reqs : list (Route * Env * Request)) (w : World) :
  keys_unique w -> keys_unique (serve reqs w).
Proof.
  revert w. induction reqs as [|[[rt env] req] reqs IH]; intros w Hk;
    [exact Hk|].
  simpl. apply IH.
  destruct (handle_effect rt env req w) as (r & w' & H & Hu & Hp).
  rewrite H. cbn [snd]. destruct Hk as (Hpid & Huid & Hname).
  split; [|split].
  - destruct Hp as [->|[(_ & info & u & a & _ & _ & Hfresh & ->)|
      [(_ & info & p & _ & _ & _ & ->)|(_ & info & p & _ & _ & _ & ->)]]].
    + exact Hpid.
    + apply NoDup_map_snoc; assumption.
    + unfold world_after_update. cbn [posts]. rewrite updated_ids.
      exact Hpid.
    + unfold world_after_delete. cbn [posts].
      apply NoDup_map_filter, Hpid.
  - destruct Hu as [->|(_ & _ & Hid & ->)]; [exact Huid|].
    apply NoDup_map_snoc; [exact Huid|].
    intros Hin. apply in_map_iff in Hin as (u & Hu & Hin).
    apply (Hid u Hin Hu).
  - destruct Hu as [->|(_ & Hfree & _ & ->)]; [exact Hname|].
    apply NoDup_map_snoc; [exact Hname|].
    intros Hin. apply in_map_iff in Hin as (u & Hu & Hin).
    apply Hfree. exists u. split; assumption.
Qed.

(** X4: in a world where post ids are unique, a stored post that is no
    longer stored as it was after a request has been updated or deleted by
    a request whose token verifies to the post's author. *)
Theorem only_the_author_changes_a_post
  (rt : Route) (env : Env) (req : Request) (w w' : World) (r : Response)
  (p : Post) :
  List.NoDup (map p_id (posts w)) ->
  app_handle rt env req w = (Ok r, w') ->
  In p (posts w) ->
  ~ In p (posts w') ->
  (rt = PUT_post \/ rt = DELETE_post_id)
  /\ exists info, session req info /\ c_id info = author p.
Proof.
  intros Hnd Hrun Hin Hout.
  destruct (handle_effect rt env req w) as (r0 & w0 & H & _ & Hp).
  rewrite Hrun in H. injection H as <- <-.
  destruct Hp as [Hp|[(_ & info & u & a & _ & _ & _ & Hp)|
    [(Hrt & info & p0 & Hs & Hauth & Hin0 & Hp)|
     (Hrt & info & p0 & Hs & Hauth & Hin0 & Hp)]]].
  - exfalso. apply Hout. rewrite Hp. exact Hin.
  - exfalso. apply Hout. rewrite Hp. apply in_or_app. left. exact Hin.
  - split; [left; exact Hrt|]. exists info. split; [exact Hs|].
    assert (Hid : p_id p = p_id p0).
    { destruct (String.eqb (p_id p) (p_id p0)) eqn:E;
        [apply String.eqb_eq, E|].
      exfalso. apply Hout. rewrite Hp. unfold world_after_update.
      cbn [posts]. apply in_map_iff. exists p. rewrite E.
      split; [reflexivity|exact Hin]. }
    rewrite (NoDup_map_inj p_id (posts w) p p0 Hnd Hin Hin0 Hid).
    exact Hauth.
  - split; [right; exact Hrt|]. exists info. split; [exact Hs|].
    assert (Hid : p_id p = p_id p0).
    { destruct (String.eqb (p_id p) (p_id p0)) eqn:E;
        [apply String.eqb_eq, E|].
      exfalso. apply Hout. rewrite Hp. unfold world_after_delete.
      cbn [posts]. apply List.filter_In. rewrite E.
      split; [exact Hin|reflexivity]. }
    rewrite (NoDup_map_inj p_id (posts w) p p0 Hnd Hin Hin0 Hid).
    exact Hauth.
Qed.

(** X5: in a world where post ids are unique, no request of any route
    changes the author or the creation timestamp of a post: a post stored
    after the request under the id of a post stored before it has the same
    author and the same creation timestamp. *)
Theorem author_and_creation_time_are_immutable
  (rt : Route) (env : Env) (req : Request) (w w' : World) (r : Response)
  (p p' : Post) :
  List.NoDup (map p_id (posts w)) ->
  app_handle rt env req w = (Ok r, w') ->
  In p (posts w) ->
  In p' (posts w') ->
  p_id p' = p_id p ->
  author p' = author p /\ createdAt p' = createdAt p.
Proof.
  intros Hnd Hrun Hin Hin' Hid.
  destruct (handle_effect rt env req w) as (r0 & w0 & H & _ & Hp).
  rewrite Hrun in H. injection H as <- <-.
  destruct Hp as [Hp|[(_ & info & u & a & _ & _ & Hfresh & Hp)|
    [(_ & info & p0 & _ & _ & _ & Hp)|(_ & info & p0 & _ & _ & _ & Hp)]]];
    rewrite Hp in Hin'.
  - rewrite (NoDup_map_inj p_id (posts w) p' p Hnd Hin' Hin Hid).
    split; reflexivity.
  - apply in_app_or in Hin' as [Hin'|[<-|[]]].
    + rewrite (NoDup_map_inj p_id (posts w) p' p Hnd Hin' Hin Hid).
      split; reflexivity.
    + exfalso. apply Hfresh. cbn [created_post p_id] in Hid. rewrite Hid.
      apply in_map, Hin.
  - unfold world_after_update in Hin'. cbn [posts] in Hin'.
    apply in_map_iff in Hin' as (q & Hq & Hinq).
    assert (Hidq : p_id q = p_id p).
    { rewrite <- Hid, <- Hq.
      destruct (String.eqb (p_id q) (p_id p0)); reflexivity. }
    rewrite (NoDup_map_inj p_id (posts w) q p Hnd Hinq Hin Hidq) in Hq.
    rewrite <- Hq. destruct (String.eqb (p_id p) (p_id p0)); split; reflexivity.
  - unfold world_after_delete in Hin'. cbn [posts] in Hin'.
    apply List.filter_In in Hin' as [Hin' _].
    rewrite (NoDup_map_inj p_id (posts w) p' p Hnd Hin' Hin Hid).
    split; reflexivity.
Qed.

(** X6: login, profile, logout, the list and the read of one post leave
    the collections and the disk exactly as they were. *)
Theorem reads_change_nothing
  (rt : Route) (env : Env) (req : Request) (w : World) :
  rt = POST_login \/ rt = GET_profile \/ rt = POST_logout
  \/ rt = GET_post \/ rt = GET_post_id ->
  snd (app_handle rt env req w) = w.
Proof.
  intros [-> | [-> | [-> | [-> | ->]]]]; cbn [app_handle].
  - unfold app_post_login, try_catch, bind. rewrite findOne_eq.
    destruct (fst (User_findOne (body_username req) w)) as [[u|]|e];
      cbv zeta;
      try destruct (bcrypt_compareSync (body_password req) (password u));
      reflexivity.
  - unfold app_get_profile.
    destruct (Js.truthy_opt (cookie_token req)); cbn [negb];
      try destruct (jwt_verify (default EmptyString (cookie_token req)) secret);
      reflexivity.
  - reflexivity.
  - reflexivity.
  - unfold app_get_post_id, try_catch, bind, Post_findById, ret.
    destruct (castObjectId (params_id req));
      try destruct (List.find _ (posts w)); reflexivity.
Qed.

(** ** Properties of single handlers *)

Lemma split_last (sep : ascii) (s : string) :
  exists init ext,
    Js.split sep s = (init ++ [ext])%list
    /\ contains_char sep ext = false
    /\ (init = [] -> s = ext)
    /\ (init <> [] -> exists stem, s = stem +:+ String sep ext).
Proof.
  induction s as [|c r IH].
  - exists [], EmptyString. repeat split; try reflexivity.
    intros H. contradiction.
  - destruct IH as (init & ext & Hsplit & Hext & Hnil & Hcons).
    simpl. destruct (Ascii.eqb_spec c sep) as [->|Hne].
    + exists (EmptyString :: init), ext. rewrite Hsplit.
      split; [reflexivity|]. split; [exact Hext|].
      split; [discriminate|]. intros _.
      destruct init as [|h init].
      * exists EmptyString. rewrite (Hnil eq_refl). reflexivity.
      * destruct Hcons as (stem & ->); [discriminate|].
        exists (String sep stem). reflexivity.
    + rewrite Hsplit. destruct init as [|h init]; simpl.
      * exists [], (String c ext). split; [reflexivity|]. split.
        { simpl. rewrite Hext. destruct (Ascii.eqb_spec c sep);
            [contradiction|reflexivity]. }
        split; [|intros H; contradiction].
        intros _. rewrite (Hnil eq_refl). reflexivity.
      * exists (String c h :: init), ext. split; [reflexivity|].
        split; [exact Hext|]. split; [discriminate|]. intros _.
        destruct Hcons as (stem & ->); [discriminate|].
        exists (String c stem). reflexivity.
Qed.

Lemma index_str_last (init : list string) (ext : string) :
  Js.index_str (init ++ [ext])
    (Z.of_nat (length (init ++ [ext])%list) - 1) = ext.
Proof.
  unfold Js.index_str. rewrite length_app. simpl length.
  replace (Z.of_nat (length init + 1) - 1)%Z with (Z.of_nat (length init))
    by lia.
  destruct (Z.ltb_spec (Z.of_nat (length init)) 0) as [Hlt|_]; [lia|].
  rewrite Nat2Z.id, nth_error_app2 by lia.
  rewrite Nat.sub_diag. reflexivity.
Qed.

Lemma cover_path_extension (env : Env) (u : Upload) :
  exists ext,
    cover_path env u = upload_path env +:+ "." +:+ ext
    /\ contains_char "." ext = false
    /\ (up_originalname u = ext
        \/ exists stem, up_originalname u = stem +:+ "." +:+ ext).
Proof.
  destruct (split_last "." (up_originalname u))
    as (init & ext & Hsplit & Hext & Hnil & Hcons).
  exists ext. split; [|split; [exact Hext|]].
  - unfold cover_path. rewrite Hsplit, index_str_last. reflexivity.
  - destruct init as [|h init].
    + left. apply Hnil. reflexivity.
    + right. destruct Hcons as (stem & Hs); [discriminate|].
      exists stem. exact Hs.
Qed.

(** X7: a successful update answers with the post as it was found before
    the update: the body carries the old title, summary, content and
    cover, whatever the request has just written. *)
Theorem update_answers_with_the_old_post
  (env : Env) (req : Request) (w w' : World) (r : Response) (p : Post) :
  fst (Post_findById (body_id req) w) = Ok (Some p) ->
  app_put_post env req w = (Ok r, w') ->
  status r = 200%nat ->
  body r = JPost p
  /\ (forall p', fst (Post_findById (body_id req) w') = Ok (Some p') ->
        title p' = body_title req
        /\ (title p <> body_title req -> body r <> JPost p')).
Proof.
  intros Hfind Hrun Hst.
  destruct (put_success_inv env req w w' r Hrun Hst)
    as (info & p0 & _ & _ & Hfind0 & _ & -> & ->).
  assert (p0 = p) as -> by congruence.
  split; [reflexivity|]. intros p' Hp'.
  rewrite (findById_after_update env req w p Hfind) in Hp'.
  injection Hp' as <-. split; [reflexivity|].
  intros Hne [= Heq]. apply Hne. rewrite Heq. reflexivity.
Qed.

(** X8: for a request with a verified token on an existing post, being
    the author is exactly what decides success: the update answers 200
    with the post, and the delete answers 200 with the success body
    (whether or not the cover file is still on disk), if and only if the
    id in the token is the stored author id. *)
Theorem author_decides_update_and_delete
  (env : Env) (req : Request) (w : World) (info : Claims) (p : Post) :
  session req info ->
  (fst (Post_findById (body_id req) w) = Ok (Some p) ->
   (fst (app_put_post env req w) = Ok (res_json (JPost p))
    <-> c_id info = author p))
  /\ (fst (Post_findById (params_id req) w) = Ok (Some p) ->
      (fst (app_delete_post_id env req w) = Ok (res_json JSuccess)
       <-> c_id info = author p)).
Proof.
  intros [Htok Hver]. split; intros Hfind; split.
  - intros Hrun. destruct (String.eqb_spec (c_id info) (author p)) as [E|E];
      [exact E|].
    rewrite (put_by_non_author env req w info p Htok Hver Hfind E) in Hrun.
    discriminate Hrun.
  - intros Hauth.
    rewrite (put_by_author env req w info p Htok Hver Hfind Hauth).
    reflexivity.
  - intros Hrun. destruct (String.eqb_spec (c_id info) (author p)) as [E|E];
      [exact E|].
    rewrite (delete_by_non_author env req w info p Htok Hver Hfind E) in Hrun.
    discriminate Hrun.
  - intros Hauth.
    rewrite (delete_by_author env req w info p Htok Hver Hfind Hauth).
    reflexivity.
Qed.

(** X9: the cover a successful create stores is the temp path of the
    upload, a dot, and an extension that holds no dot and ends the original
    name: the name is the extension itself or some stem, a dot and the
    extension. *)
Theorem stored_extension_ends_the_name
  (env : Env) (req : Request) (w w' : World) (r : Response) (u : Upload) :
  upload req = Some u ->
  app_post_post env req w = (Ok r, w') ->
  status r = 200%nat ->
  exists p' ext,
    body r = JPost p'
    /\ In p' (posts w')
    /\ cover p' = upload_path env +:+ "." +:+ ext
    /\ contains_char "." ext = false
    /\ (up_originalname u = ext
        \/ exists stem, up_originalname u = stem +:+ "." +:+ ext).
Proof.
  intros Hup Hrun Hst.
  destruct (create_success_inv env req w w' r Hrun Hst)
    as (info & u0 & a & _ & _ & Hup0 & _ & -> & ->).
  assert (u0 = u) as -> by congruence.
  destruct (cover_path_extension env u) as (ext & Hcover & Hext & Hname).
  exists (created_post env req u a), ext.
  split; [reflexivity|]. split.
  - unfold world_after_create. cbn [posts]. apply in_or_app. right.
    left. reflexivity.
  - split; [exact Hcover|]. split; assumption.
Qed.

Lemma length_append (a b : string) :
  String.length (a +:+ b) = (String.length a + String.length b)%nat.
Proof.
  induction a as [|c a IH]; [reflexivity|].
  rewrite append_cons. simpl. rewrite IH. reflexivity.
Qed.

Lemma append_longer (a : string) (c : ascii) (x : string) :
  a <> a +:+ String c x.
Proof.
  intros H. apply (f_equal String.length) in H.
  rewrite length_append in H. simpl in H. lia.
Qed.

Lemma find_snoc {A} (f : A -> bool) (l : list A) (x : A) :
  (forall y, In y l -> f y = false) -> f x = true ->
  List.find f (l ++ [x]) = Some x.
Proof.
  intros Hl Hx. induction l as [|y l IH]; simpl.
  - rewrite Hx. reflexivity.
  - rewrite (Hl y) by (left; reflexivity).
    apply IH. intros z Hz. apply Hl. right. exact Hz.
Qed.

Lemma sort_by_snoc_newest {A} (key : A -> N) (l : list A) (x : A) :
  (forall y, In y l -> (key y < key x)%N) ->
  sort_by key (-1) (l ++ [x]) = x :: sort_by key (-1) l.
Proof.
  intros Hl. induction l as [|y l IH]; simpl; [reflexivity|].
  rewrite IH by (intros z Hz; apply Hl; right; exact Hz).
  simpl. unfold sort_leb. change (-1 <? 0)%Z with true. cbv iota.
  destruct (N.leb_spec (key x) (key y)) as [Hle|_]; [|reflexivity].
  specialize (Hl y (or_introl eq_refl)). lia.
Qed.

(** X10: a login that succeeds sets one http-only cookie named [token]
    holding the signed claims of the user; when that token is non-empty
    and verifies to what was signed, any later profile request carrying
    it is answered 200 with the username and id of the user who logged
    in. *)
Theorem login_then_profile
  (env : Env) (req : Request) (w : World) (u : User) :
  let claims := {| c_username := body_username req; c_id := u_id u |} in
  let token := jwt_sign claims secret in
  fst (User_findOne (body_username req) w) = Ok (Some u) ->
  bcrypt_compareSync (body_password req) (password u) = true ->
  Js.truthy token = true ->
  jwt_verify token secret = Some claims ->
  app_post_login env req w
  = (Ok {| status := 200;
           body := JIdentity (u_id u) (body_username req);
           set_cookie := [ {| ck_name := "token"; ck_value := token;
                              httpOnly := true; secure := production;
                              sameSite := "none" |} ] |}, w)
  /\ forall env2 req2 w2,
       cookie_token req2 = Some token ->
       app_get_profile env2 req2 w2 = (Ok (res_json (JClaims claims)), w2).
Proof.
  intros claims token Hfind Hpw Htruthy Hver. split.
  - apply (login_ok env req w u Hfind Hpw).
  - intros env2 req2 w2 Hcookie. unfold app_get_profile.
    rewrite Hcookie. cbn [Js.truthy_opt]. rewrite Htruthy. cbn [negb].
    change (default EmptyString (Some token)) with token.
    rewrite Hver. reflexivity.
Qed.

(** X11: logout answers 200 and resets the [token] cookie to the empty
    string; a request that carries this cookie is treated as one without a
    token: profile, create, update and delete answer 401, and users and
    posts stay as they were. *)
Theorem logout_cookie_is_no_session
  (env : Env) (req : Request) (w : World) :
  exists c,
    app_post_logout env req w
    = (Ok {| status := 200; body := JStr "ok"; set_cookie := [c] |}, w)
    /\ ck_name c = "token"
    /\ forall rt env2 req2 w2,
         cookie_token req2 = Some (ck_value c) ->
         rt = GET_profile \/ rt = POST_post \/ rt = PUT_post
         \/ rt = DELETE_post_id ->
         exists w2',
           app_handle rt env2 req2 w2
           = (Ok (res_status_json 401 (JError "No token provided")), w2')
           /\ posts w2' = posts w2 /\ users w2' = users w2.
Proof.
  exists (token_cookie EmptyString). split; [reflexivity|].
  split; [reflexivity|].
  intros rt env2 req2 w2 Hcookie Hrt.
  assert (Htok : Js.truthy_opt (cookie_token req2) = false)
    by (rewrite Hcookie; reflexivity).
  destruct Hrt as [-> | [-> | [-> | ->]]]; cbn [app_handle].
  - exists w2. unfold app_get_profile. rewrite Htok.
    split; [reflexivity|]. split; reflexivity.
  - exists (world_after_middleware env2 req2 w2).
    split; [apply create_without_token, Htok|].
    split; [apply posts_after_middleware|apply users_after_middleware].
  - exists (world_after_middleware env2 req2 w2).
    destruct (put_cases env2 req2 w2)
      as [[_ H]|[(Ht & _)|(info & [Ht _] & _)]]; try congruence.
    split; [exact H|].
    split; [apply posts_after_middleware|apply users_after_middleware].
  - exists w2.
    destruct (delete_cases env2 req2 w2)
      as [[_ H]|[(Ht & _)|(info & [Ht _] & _)]]; try congruence.
    split; [exact H|]. split; reflexivity.
Qed.

(** X12: a create request with a verified token whose id casts to an
    ObjectId, an uploaded file and a document id not yet used is answered
    200 with the stored post: its author is the cast session identity, its
    creation timestamp the clock's, its text the request's; it is appended
    to the posts; the uploaded contents sit on disk at its cover path and
    the temp path no longer holds a file. *)
Theorem create_stores_the_upload_and_the_post
  (env : Env) (req : Request) (w : World) (info : Claims) (u : Upload)
  (a : ObjectId) :
  session req info ->
  upload req = Some u ->
  castObjectId (c_id info) = Some a ->
  ~ In (new_oid env) (map p_id (posts w)) ->
  exists p' w',
    app_post_post env req w = (Ok (res_json (JPost p')), w')
    /\ p_id p' = new_oid env
    /\ author p' = a
    /\ createdAt p' = now env
    /\ title p' = body_title req
    /\ summary p' = body_summary req
    /\ content p' = body_content req
    /\ posts w' = (posts w ++ [p'])%list
    /\ users w' = users w
    /\ disk w' !! cover p' = Some (up_data u)
    /\ disk w' !! upload_path env = None.
Proof.
  intros [Htok Hver] Hup Hcast Hfresh.
  assert (Hex : existsb (fun p => String.eqb (p_id p) (new_oid env)) (posts w)
                = false).
  { apply not_true_is_false. intros H.
    apply existsb_exists in H as (p & Hin & Hp). apply String.eqb_eq in Hp.
    apply Hfresh. rewrite <- Hp. apply in_map, Hin. }
  exists (created_post env req u a), (world_after_create env req u a w).
  split; [apply (create_by_user env req w info u a); assumption|].
  repeat (split; [reflexivity|]).
  unfold world_after_create, world_after_upload, after_upload.
  rewrite Hup. cbn [disk created_post cover]. split.
  - apply lookup_insert_eq.
  - rewrite lookup_insert_ne.
    + apply lookup_delete_eq.
    + intros H. symmetry in H. unfold cover_path in H.
      apply append_longer in H. exact H.
Qed.

(** X13: a create request with an upload that is answered anything but
    200 stores no post and no user, yet its upload stays on disk: under
    the temp path when the session was refused (401, 403), under the
    renamed path when the store refused the post (500). *)
Theorem refused_create_leaves_the_upload
  (env : Env) (req : Request) (w w' : World) (r : Response) (u : Upload) :
  upload req = Some u ->
  app_post_post env req w = (Ok r, w') ->
  status r <> 200%nat ->
  posts w' = posts w /\ users w' = users w
  /\ ((status r = 401%nat \/ status r = 403%nat)
      /\ disk w' !! upload_path env = Some (up_data u)
      \/ status r = 500%nat
         /\ disk w' !! cover_path env u = Some (up_data u)).
Proof.
  intros Hup Hrun Hst.
  destruct (create_cases env req w)
    as [[_ H]|[(_ & _ & H)|(info & Hs & [[Hnone _]|[(u0 & _ & _ & H)|
          (u0 & a & _ & _ & _ & H)]])]];
    try congruence; rewrite H in Hrun; injection Hrun as <- <-.
  - rewrite posts_after_middleware, users_after_middleware.
    split; [reflexivity|]. split; [reflexivity|]. left.
    split; [left; reflexivity|].
    unfold world_after_middleware. rewrite Hup. apply lookup_insert_eq.
  - rewrite posts_after_middleware, users_after_middleware.
    split; [reflexivity|]. split; [reflexivity|]. left.
    split; [right; reflexivity|].
    unfold world_after_middleware. rewrite Hup. apply lookup_insert_eq.
  - rewrite posts_after_upload, users_after_upload.
    split; [reflexivity|]. split; [reflexivity|]. right.
    split; [reflexivity|].
    unfold world_after_upload, after_upload. rewrite Hup.
    apply lookup_insert_eq.
  - exfalso. apply Hst. reflexivity.
Qed.

(** X14: an update request with an upload that carries a verified token
    and is answered anything but 200 (unknown id, not the author, store
    failure) changes no post, yet its upload has been renamed and stays on
    disk under the renamed path. *)
Theorem refused_update_leaves_the_upload
  (env : Env) (req : Request) (w w' : World) (r : Response) (u : Upload)
  (info : Claims) :
  session req info ->
  upload req = Some u ->
  app_put_post env req w = (Ok r, w') ->
  status r <> 200%nat ->
  posts w' = posts w /\ users w' = users w
  /\ disk w' !! cover_path env u = Some (up_data u)
  /\ disk w' !! upload_path env = None.
Proof.
  intros [Htok Hver] Hup Hrun Hst.
  assert (Hworld : w' = world_after_upload env req w).
  { destruct (put_cases env req w)
      as [[Ht _]|[(_ & Hv & _)|(info0 & _ & [(e & _ & H)|[[_ H]|
            [(p & _ & _ & H)|(p & _ & _ & H)]]])]];
      try congruence; rewrite H in Hrun; injection Hrun as <- <-;
      try reflexivity.
    exfalso. apply Hst. reflexivity. }
  subst w'. rewrite posts_after_upload, users_after_upload.
  split; [reflexivity|]. split; [reflexivity|].
  unfold world_after_upload, after_upload. rewrite Hup. cbn [disk]. split.
  - apply lookup_insert_eq.
  - rewrite lookup_insert_ne.
    + apply lookup_delete_eq.
    + intros H. symmetry in H. unfold cover_path in H.
      apply append_longer in H. exact H.
Qed.

(** X15: the post a successful create answers with can be read back: a
    read of one post whose id casts to the new document's id is answered
    200 with that post and the stored author's id and username joined. *)
Theorem create_then_read
  (env : Env) (req : Request) (w w' : World) (r : Response) :
  app_post_post env req w = (Ok r, w') ->
  status r = 200%nat ->
  exists p',
    body r = JPost p'
    /\ forall env2 req2,
         castObjectId (params_id req2) = Some (p_id p') ->
         app_get_post_id env2 req2 w'
         = (Ok (res_json (JPopulated
                            {| doc := p';
                               author_doc := joined_author (users w') p' |})),
            w').
Proof.
  intros Hrun Hst.
  destruct (create_cases env req w)
    as [[_ H]|[(_ & _ & H)|(info & Hs & [[_ H]|[(u & _ & _ & H)|
          (u & a & Hup & Hcast & Hfresh & H)]])]];
    rewrite H in Hrun; injection Hrun as <- <-; try discriminate Hst.
  exists (created_post env req u a). split; [reflexivity|].
  intros env2 req2 Hid.
  unfold app_get_post_id, try_catch, bind, Post_findById, ret.
  rewrite Hid. unfold world_after_create. cbn [posts users].
  rewrite find_snoc.
  - rewrite <- populate_author_joined. reflexivity.
  - intros q Hq. apply String.eqb_neq. intros Heq.
    apply (existsb_id_false _ _ Hfresh). cbn [created_post p_id] in Heq.
    rewrite <- Heq. apply in_map, Hq.
  - apply String.eqb_refl.
Qed.

(** X16: when every stored post is older than the clock, the post a
    successful create stores is the first item of the list endpoint
    afterwards. *)
Theorem created_post_heads_the_list
  (env : Env) (req : Request) (w w' : World) (r : Response) :
  (forall q, In q (posts w) -> (createdAt q < now env)%N) ->
  app_post_post env req w = (Ok r, w') ->
  status r = 200%nat ->
  exists p',
    body r = JPost p'
    /\ forall env2 req2,
         exists rest,
           app_get_post env2 req2 w'
           = (Ok (res_json
                    (JPosts ({| doc := p';
                                author_doc := joined_author (users w') p' |}
                             :: rest))), w').
Proof.
  intros Hold Hrun Hst.
  destruct (create_cases env req w)
    as [[_ H]|[(_ & _ & H)|(info & Hs & [[_ H]|[(u & _ & _ & H)|
          (u & a & Hup & Hcast & Hfresh & H)]])]];
    rewrite H in Hrun; injection Hrun as <- <-; try discriminate Hst.
  exists (created_post env req u a). split; [reflexivity|].
  intros env2 req2.
  eexists. rewrite list_posts_run. unfold world_after_create.
  cbn [posts users]. rewrite map_app. cbn [map].
  rewrite sort_by_snoc_newest.
  - unfold limit. cbn [firstn]. rewrite <- populate_author_joined.
    reflexivity.
  - intros y Hy. apply in_map_iff in Hy as (q & <- & Hq).
    cbn [populate_author doc created_post createdAt]. apply Hold, Hq.
Qed.

(** X17: after a successful delete the post is gone for every later
    request on the same id: a read of it is answered 404 and a second
    delete with a verified token is answered 404 and changes nothing. *)
Theorem deleted_post_is_gone
  (env : Env) (req : Request) (w w' : World) (r : Response) :
  app_delete_post_id env req w = (Ok r, w') ->
  status r = 200%nat ->
  forall env2 req2,
    params_id req2 = params_id req ->
    app_get_post_id env2 req2 w'
    = (Ok (res_status_json 404 (JStr "Post not found")), w')
    /\ (forall info2, session req2 info2 ->
          app_delete_post_id env2 req2 w'
          = (Ok (res_status_json 404 (JStr "Post not found")), w')).
Proof.
  intros Hrun Hst env2 req2 Hid.
  destruct (delete_success_inv env req w w' r Hrun Hst)
    as (info & p & _ & _ & Hfind & _ & _ & ->).
  pose proof (findById_after_delete req w p Hfind) as Hgone.
  rewrite <- Hid in Hgone.
  assert (E : Post_findById (params_id req2) (world_after_delete p w)
              = (Ok None, world_after_delete p w)).
  { revert Hgone. unfold Post_findById.
    destruct (castObjectId (params_id req2)); cbn [fst]; [|discriminate].
    intros Hg. rewrite Hg. reflexivity. }
  split.
  - unfold app_get_post_id, try_catch, bind. rewrite E. reflexivity.
  - intros info2 [Htok Hver].
    destruct (delete_cases env2 req2 (world_after_delete p w))
      as [[Ht _]|[(_ & Hv & _)|(info0 & _ & [(e & Hf & _)|[[_ H]|
            [(q & Hf & _)|(q & Hf & _)]]])]];
      try congruence.
Qed.


(** X19: the list endpoint returns exactly as many items as there are
    stored posts, capped at 20. *)
Theorem list_returns_min_20_or_all
  (env : Env) (req : Request) (w : World) :
  exists l,
    app_get_post env req w = (Ok (res_json (JPosts l)), w)
    /\ length l = Nat.min 20 (length (posts w)).
Proof.
  eexists. split; [apply list_posts_run|].
  unfold limit. rewrite length_firstn.
  rewrite (Permutation_length (sort_by_perm _ _ _)), length_map.
  reflexivity.
Qed.

(** X20: the header follows the profile answer it fetches on mount: when
    the request carries a token that verifies to claims with a non-empty
    username, the nav shows the create link and the logout anchor with
    that username; when the cookie is missing, empty or does not verify,
    the error body has no username and the nav shows the login and
    register links. *)
Theorem header_follows_the_profile_answer
  (env : Env) (req : Request) (w : World) :
  exists r,
    app_get_profile env req w = (Ok r, w)
    /\ (forall info, session req info ->
          Js.truthy (c_username info) = true ->
          Header.nav (Header.onMount r)
          = [Header.Link "/create" "Create new post";
             Header.Anchor ("Logout (" +:+ c_username info +:+ ")")])
    /\ (Js.truthy_opt (cookie_token req) = false
        \/ jwt_verify (default EmptyString (cookie_token req)) secret = None ->
        Header.nav (Header.onMount r)
        = [Header.Link "/login" "Login"; Header.Link "/register" "Register"]).
Proof.
  unfold app_get_profile.
  destruct (Js.truthy_opt (cookie_token req)) eqn:Htok; cbn [negb].
  - destruct (jwt_verify (default EmptyString (cookie_token req)) secret)
      as [info|] eqn:Hver.
    + eexists. split; [reflexivity|]. split.
      * intros info0 [_ Hv] Hname. assert (info0 = info) as -> by congruence.
        unfold Header.nav, Header.onMount, res_json, res_status_json.
        cbn [body Header.username_of Js.truthy_opt]. rewrite Hname.
        reflexivity.
      * intros [H|H]; congruence.
    + eexists. split; [reflexivity|]. split.
      * intros info0 [_ Hv]. congruence.
      * intros _. reflexivity.
  - eexists. split; [reflexivity|]. split.
    + intros info0 [Ht _]. congruence.
    + intros _. reflexivity.
Qed.

End Api.
(** ** The claims on the small instance *)

Lemma non_author_is_forbidden_witness :
  (exists w',
     app_put_post Demo.secret Demo.verify Demo.cast Demo.env
       Demo.bob_on_post1 Demo.world
     = (Ok (res_status_json 403 (JStr "You are not the author")), w')
     /\ posts w' = posts Demo.world /\ users w' = users Demo.world)
  /\ app_delete_post_id Demo.secret Demo.verify Demo.cast Demo.env
       Demo.bob_on_post1 Demo.world
     = (Ok (res_status_json 403 (JStr "You are not the author")), Demo.world).
Proof.
  destruct (non_author_is_forbidden Demo.secret Demo.verify Demo.cast Demo.env
              Demo.bob_on_post1 Demo.world
              {| c_username := "bob"; c_id := Demo.bob_id |} Demo.post1)
    as [Hput Hdel].
  - reflexivity.
  - reflexivity.
  - discriminate.
  - split; [apply Hput|apply Hdel]; reflexivity.
Defined.

Lemma update_keeps_author_witness :
  let w' := snd (app_put_post Demo.secret Demo.verify Demo.cast Demo.env
                   Demo.alice_on_post1 Demo.world) in
  (exists p', fst (Post_findById Demo.cast Demo.post1_id w') = Ok (Some p')
              /\ author p' = Demo.alice_id
              /\ p_id p' = Demo.post1_id
              /\ createdAt p' = 1700000000000)
  /\ users w' = users Demo.world.
Proof.
  intros w'.
  destruct (update_keeps_author Demo.secret Demo.verify Demo.cast Demo.env
              Demo.alice_on_post1 Demo.world w'
              (res_json (JPost Demo.post1)) Demo.post1)
    as (Hp & _ & Hu).
  - reflexivity.
  - vm_compute. reflexivity.
  - reflexivity.
  - split; [exact Hp|exact Hu].
Defined.

Lemma update_replaces_fields_witness :
  let w' := snd (app_put_post Demo.secret Demo.verify Demo.cast Demo.env
                   Demo.alice_edit_text Demo.world) in
  exists p', fst (Post_findById Demo.cast Demo.post1_id w') = Ok (Some p')
             /\ title p' = "Hello again"
             /\ summary p' = "Edited"
             /\ content p' = "<p>Edited</p>"
             /\ cover p' = "uploads/0a1b2c.png".
Proof.
  intros w'.
  destruct (update_replaces_fields Demo.secret Demo.verify Demo.cast Demo.env
              Demo.alice_edit_text Demo.world w'
              (res_json (JPost Demo.post1)) Demo.post1)
    as (Hp & _).
  - reflexivity.
  - vm_compute. reflexivity.
  - reflexivity.
  - exact Hp.
Defined.

Lemma update_keeps_old_cover_file_witness :
  let w' := snd (app_put_post Demo.secret Demo.verify Demo.cast Demo.env
                   Demo.alice_on_post1 Demo.world) in
  disk w' !! "uploads/0a1b2c.png" = Some "PNG"
  /\ disk w' !! "uploads/77aa88bb.README" = Some "TEXT"
  /\ exists p', fst (Post_findById Demo.cast Demo.post1_id w') = Ok (Some p')
                /\ cover p' = "uploads/77aa88bb.README".
Proof.
  intros w'.
  destruct (update_keeps_old_cover_file Demo.secret Demo.verify Demo.cast
              Demo.env Demo.alice_on_post1 Demo.world w'
              (res_json (JPost Demo.post1)) Demo.post1
              {| up_originalname := "README"; up_data := "TEXT" |})
    as (_ & Hold & Hnew & Hp).
  - reflexivity.
  - reflexivity.
  - vm_compute. reflexivity.
  - reflexivity.
  - split; [|split; [exact Hnew|exact Hp]].
    change (disk w' !! cover Demo.post1 = Some "PNG").
    rewrite Hold; [reflexivity|discriminate|discriminate].
Defined.

Lemma login_failure_is_generic_witness :
  app_post_login Demo.secret false Demo.compareSync Demo.sign Demo.env
    Demo.alice_wrong_password Demo.world
  = (Ok {| status := 400; body := JStr "wrong credentials"; set_cookie := [] |},
     Demo.world)
  /\ app_post_login Demo.secret false Demo.compareSync Demo.sign Demo.env
       Demo.carol_registers Demo.world
     = (Ok {| status := 400; body := JStr "wrong credentials";
               set_cookie := [] |},
        Demo.world).
Proof.
  split.
  - apply login_failure_is_generic. right. exists Demo.alice.
    split; reflexivity.
  - apply login_failure_is_generic. left. reflexivity.
Defined.

(** Counterexample to C5 as the specification words it: a create request
    whose cookie is not a signed token is answered 403, not 401. *)
Lemma create_with_forged_cookie_is_not_401 :
  Demo.verify "forged" Demo.secret = None
  /\ fst (app_post_post Demo.secret Demo.verify Demo.cast Demo.env
            Demo.forged_create Demo.empty_world)
     = Ok (res_status_json 403 (JError "Invalid token"))
  /\ ~ create_without_session_is_401 Demo.secret Demo.verify Demo.cast.
Proof.
  split; [reflexivity|]. split; [vm_compute; reflexivity|].
  intros H.
  destruct (H Demo.env Demo.forged_create Demo.empty_world)
    as (r & w' & Hrun & Hst & _).
  - right. reflexivity.
  - vm_compute in Hrun. injection Hrun as <- _. discriminate Hst.
Qed.

Lemma create_without_session_is_rejected_witness :
  app_post_post Demo.secret Demo.verify Demo.cast Demo.env Demo.forged_create
    Demo.empty_world
  = (Ok (res_status_json 403 (JError "Invalid token")),
     world_after_middleware Demo.env Demo.forged_create Demo.empty_world)
  /\ app_post_post Demo.secret Demo.verify Demo.cast Demo.env
       Demo.carol_registers Demo.empty_world
     = (Ok (res_status_json 401 (JError "No token provided")),
        world_after_middleware Demo.env Demo.carol_registers Demo.empty_world)
  /\ posts (world_after_middleware Demo.env Demo.forged_create
              Demo.empty_world) = [].
Proof.
  destruct (create_without_session_is_rejected Demo.secret Demo.verify
              Demo.cast Demo.env Demo.forged_create Demo.empty_world)
    as (_ & H403 & Hposts).
  destruct (create_without_session_is_rejected Demo.secret Demo.verify
              Demo.cast Demo.env Demo.carol_registers Demo.empty_world)
    as (H401 & _ & _).
  split; [|split].
  - apply H403; reflexivity.
  - apply H401; reflexivity.
  - exact Hposts.
Defined.

Lemma delete_removes_cover_then_record_witness :
  let w' := snd (app_delete_post_id Demo.secret Demo.verify Demo.cast Demo.env
                   Demo.alice_edit_text Demo.world) in
  disk w' !! "uploads/0a1b2c.png" = None
  /\ fst (Post_findById Demo.cast Demo.post1_id w') = Ok None
  /\ users w' = users Demo.world.
Proof.
  intros w'.
  destruct (delete_removes_cover_then_record Demo.secret Demo.verify Demo.cast
              Demo.env Demo.alice_edit_text Demo.world w'
              (res_json JSuccess) Demo.post1)
    as (Hgone & _ & _ & Hfind & _ & Hu).
  - reflexivity.
  - vm_compute. reflexivity.
  - reflexivity.
  - split; [|split; [exact Hfind|exact Hu]].
    apply Hgone. discriminate.
Defined.

Lemma register_twice_fails_witness :
  let carol := registered_user Demo.salt Demo.hashSync Demo.env
                 Demo.carol_registers in
  let w1 := {| users := users Demo.world ++ [carol];
               posts := posts Demo.world; disk := disk Demo.world |} in
  app_post_register Demo.salt Demo.hashSync Demo.env Demo.carol_registers
    Demo.world
  = (Ok (res_json (JUser carol)), w1)
  /\ password carol = "na$looking-glass"
  /\ app_post_register Demo.salt Demo.hashSync Demo.env Demo.carol_registers w1
     = (Ok (res_status_json 400 (JExn DuplicateKey)), w1).
Proof.
  intros carol w1.
  destruct (register_twice_fails Demo.salt Demo.hashSync Demo.env
              Demo.carol_registers Demo.world)
    as (Hfirst & Hpw & Hsecond).
  - intros (u & Hin & Hu). simpl in Hin.
    destruct Hin as [<-|[<-|[]]]; discriminate Hu.
  - intros u Hin. simpl in Hin.
    destruct Hin as [<-|[<-|[]]]; discriminate.
  - split; [exact Hfirst|]. split; [exact Hpw|].
    apply Hsecond; [reflexivity|].
    simpl. right. right. left. reflexivity.
Defined.

Lemma dotless_name_is_the_extension_witness :
  (exists p',
     body (res_json (JPost (created_post Demo.env Demo.alice_on_post1
                              {| up_originalname := "README";
                                 up_data := "TEXT" |} Demo.alice_id)))
     = JPost p'
     /\ In p' (posts (snd (app_post_post Demo.secret Demo.verify Demo.cast
                            Demo.env Demo.alice_on_post1 Demo.world)))
     /\ cover p' = "uploads/77aa88bb.README")
  /\ (exists p',
        fst (Post_findById Demo.cast Demo.post1_id
               (snd (app_put_post Demo.secret Demo.verify Demo.cast Demo.env
                       Demo.alice_on_post1 Demo.world)))
        = Ok (Some p')
        /\ cover p' = "uploads/77aa88bb.README").
Proof.
  destruct (dotless_name_is_the_extension Demo.secret Demo.verify Demo.cast
              Demo.env Demo.alice_on_post1
              {| up_originalname := "README"; up_data := "TEXT" |})
    as (Hcreate & Hupdate).
  - reflexivity.
  - reflexivity.
  - split.
    + apply (Hcreate Demo.world); [vm_compute; reflexivity|reflexivity].
    + apply (Hupdate Demo.world _ (res_json (JPost Demo.post1)));
        [vm_compute; reflexivity|reflexivity].
Defined.

Lemma list_is_newest_first_at_most_20_witness :
  exists l,
    app_get_post Demo.env Demo.blank Demo.world
    = (Ok (res_json (JPosts l)), Demo.world)
    /\ (length l <= 20)%nat
    /\ forall x, In x l ->
         exists u, In u (users Demo.world) /\ u_id u = author (doc x)
                   /\ author_doc x
                      = Some {| ref_id := u_id u; ref_username := username u |}.
Proof.
  destruct (list_is_newest_first_at_most_20 Demo.env Demo.blank Demo.world)
    as (l & Hrun & Hlen & _ & _ & Hjoin & _).
  exists l. split; [exact Hrun|]. split; [exact Hlen|].
  apply Hjoin. intros p Hp. simpl in Hp.
  destruct Hp as [<-|[<-|[]]].
  - exists Demo.alice. split; [left; reflexivity|reflexivity].
  - exists Demo.bob. split; [right; left; reflexivity|reflexivity].
Defined.

(** On the instance the list endpoint returns the newer post first. *)
Example list_on_instance :
  fst (app_get_post Demo.env Demo.blank Demo.world)
  = Ok (res_json
          (JPosts
             [ {| doc := Demo.post2;
                  author_doc := Some {| ref_id := Demo.bob_id;
                                        ref_username := "bob" |} |};
               {| doc := Demo.post1;
                  author_doc := Some {| ref_id := Demo.alice_id;
                                        ref_username := "alice" |} |} ])).
Proof. vm_compute. reflexivity. Qed.

(** ** A few runs *)

Example split_on_dots :
  Js.split "." "photo.final.jpg" = ["photo"; "final"; "jpg"].
Proof. reflexivity. Qed.

Example split_of_empty : Js.split "." "" = [""].
Proof. reflexivity. Qed.

Example split_trailing_dot : Js.split "." "archive." = ["archive"; ""].
Proof. reflexivity. Qed.

Example stringify_of_id :
  Js.JSON_stringify "64b7f0"
  = String Js.dquote ("64b7f0" +:+ String Js.dquote "").
Proof. reflexivity. Qed.

Example stringify_escapes_newline :
  Js.JSON_stringify (String "010" "")
  = String Js.dquote
      (String Js.backslash ("n" +:+ String Js.dquote "")).
Proof. reflexivity. Qed.

(** Bob logs in and gets the token cookie. *)
Example login_on_instance :
  fst (app_post_login Demo.secret false Demo.compareSync Demo.sign Demo.env
         {| cookie_token := None;
            body_username := "bob"; body_password := "builder";
            body_id := ""; body_title := ""; body_summary := "";
            body_content := ""; params_id := ""; upload := None |}
         Demo.world)
  = Ok {| status := 200;
          body := JIdentity Demo.bob_id "bob";
          set_cookie :=
            [ {| ck_name := "token";
                 ck_value := "s3cret.64b7f0c2a1d3e4f5a6b7c8d2.bob";
                 httpOnly := true; secure := false; sameSite := "none" |} ] |}.
Proof. vm_compute. reflexivity. Qed.

(** Bob creates a post; the cover keeps only the last extension. *)
Example create_on_instance :
  fst (app_post_post Demo.secret Demo.verify Demo.cast Demo.env
         {| cookie_token := Some Demo.bob_token;
            body_username := ""; body_password := "";
            body_id := ""; body_title := "Third"; body_summary := "3";
            body_content := "<p>3</p>"; params_id := "";
            upload := Some {| up_originalname := "photo.final.jpg";
                              up_data := "JPG" |} |}
         Demo.world)
  = Ok (res_json
          (JPost {| p_id := "64b7f0c2a1d3e4f5a6b7c8e3"; title := "Third";
                    summary := "3"; content := "<p>3</p>";
                    cover := "uploads/77aa88bb.jpg";
                    author := Demo.bob_id;
                    createdAt := 1700000500000 |})).
Proof. vm_compute. reflexivity. Qed.

(** ** The further properties on the small instance *)

Ltac distinct_strings :=
  repeat (apply List.NoDup_cons;
          [simpl; let H := fresh in
           intros H; repeat (destruct H as [H|H]; [discriminate H|]); exact H
          |]);
  apply List.NoDup_nil.

Lemma keys_stay_unique_witness :
  keys_unique
    (serve Demo.salt Demo.secret false Demo.hashSync Demo.compareSync
       Demo.sign Demo.verify Demo.cast
       [ (POST_register, Demo.env, Demo.carol_registers);
         (POST_post, Demo.env, Demo.bob_creates);
         (DELETE_post_id, Demo.env, Demo.alice_edit_text) ]
       Demo.world).
Proof.
  apply keys_stay_unique. unfold keys_unique. simpl.
  split; [|split]; distinct_strings.
Defined.

Lemma only_the_author_changes_a_post_witness :
  (PUT_post = PUT_post \/ PUT_post = DELETE_post_id)
  /\ exists info,
       session Demo.secret Demo.verify Demo.alice_edit_text info
       /\ c_id info = author Demo.post1.
Proof.
  apply (only_the_author_changes_a_post Demo.salt Demo.secret false
           Demo.hashSync Demo.compareSync Demo.sign Demo.verify Demo.cast
           PUT_post Demo.env Demo.alice_edit_text Demo.world
           (snd (app_put_post Demo.secret Demo.verify Demo.cast Demo.env
                   Demo.alice_edit_text Demo.world))
           (res_json (JPost Demo.post1)) Demo.post1).
  - simpl. distinct_strings.
  - vm_compute. reflexivity.
  - left. reflexivity.
  - vm_compute. intros [H|[H|[]]]; discriminate H.
Defined.

Lemma author_and_creation_time_are_immutable_witness :
  let edited :=
    {| p_id := Demo.post1_id; title := "Hello again"; summary := "Edited";
       content := "<p>Edited</p>"; cover := "uploads/0a1b2c.png";
       author := Demo.alice_id; createdAt := 1700000000000 |} in
  In edited
    (posts (snd (app_put_post Demo.secret Demo.verify Demo.cast Demo.env
                   Demo.alice_edit_text Demo.world)))
  /\ author edited = author Demo.post1
  /\ createdAt edited = createdAt Demo.post1.
Proof.
  intros edited.
  assert (Hin : In edited
                  (posts (snd (app_put_post Demo.secret Demo.verify Demo.cast
                                 Demo.env Demo.alice_edit_text Demo.world)))).
  { vm_compute. left. reflexivity. }
  split; [exact Hin|].
  apply (author_and_creation_time_are_immutable Demo.salt Demo.secret false
           Demo.hashSync Demo.compareSync Demo.sign Demo.verify Demo.cast
           PUT_post Demo.env Demo.alice_edit_text Demo.world
           (snd (app_put_post Demo.secret Demo.verify Demo.cast Demo.env
                   Demo.alice_edit_text Demo.world))
           (res_json (JPost Demo.post1)) Demo.post1 edited).
  - simpl. distinct_strings.
  - vm_compute. reflexivity.
  - left. reflexivity.
  - exact Hin.
  - reflexivity.
Defined.

Lemma reads_change_nothing_witness :
  snd (app_handle Demo.salt Demo.secret false Demo.hashSync Demo.compareSync
         Demo.sign Demo.verify Demo.cast GET_post_id Demo.env
         Demo.bob_on_post1 Demo.world)
  = Demo.world.
Proof.
  apply reads_change_nothing. right. right. right. right. reflexivity.
Defined.

Lemma update_answers_with_the_old_post_witness :
  let run := app_put_post Demo.secret Demo.verify Demo.cast Demo.env
               Demo.alice_edit_text Demo.world in
  fst run = Ok (res_json (JPost Demo.post1))
  /\ title Demo.post1 = "Hello"
  /\ forall p', fst (Post_findById Demo.cast Demo.post1_id (snd run))
                = Ok (Some p') ->
                title p' = "Hello again".
Proof.
  intros run.
  destruct (update_answers_with_the_old_post Demo.secret Demo.verify Demo.cast
              Demo.env Demo.alice_edit_text Demo.world (snd run)
              (res_json (JPost Demo.post1)) Demo.post1)
    as [_ Hnew].
  - reflexivity.
  - vm_compute. reflexivity.
  - reflexivity.
  - split; [vm_compute; reflexivity|]. split; [reflexivity|].
    intros p' Hp'. apply (Hnew p' Hp').
Defined.

Lemma author_decides_update_and_delete_witness :
  fst (app_put_post Demo.secret Demo.verify Demo.cast Demo.env
         Demo.alice_edit_text Demo.world)
  = Ok (res_json (JPost Demo.post1))
  /\ fst (app_delete_post_id Demo.secret Demo.verify Demo.cast Demo.env
            Demo.alice_edit_text Demo.world)
     = Ok (res_json JSuccess).
Proof.
  destruct (author_decides_update_and_delete Demo.secret Demo.verify Demo.cast
              Demo.env Demo.alice_edit_text Demo.world
              {| c_username := "alice"; c_id := Demo.alice_id |} Demo.post1)
    as [Hput Hdel].
  - split; reflexivity.
  - destruct (Hput eq_refl) as [_ Hp]. destruct (Hdel eq_refl) as [_ Hd].
    split; [apply Hp|apply Hd]; reflexivity.
Defined.

Lemma stored_extension_ends_the_name_witness :
  exists p' ext,
    In p' (posts (snd (app_post_post Demo.secret Demo.verify Demo.cast
                         Demo.env Demo.bob_creates Demo.world)))
    /\ cover p' = upload_path Demo.env +:+ "." +:+ ext
    /\ contains_char "." ext = false
    /\ ("photo.final.jpg" = ext
        \/ exists stem, "photo.final.jpg" = stem +:+ "." +:+ ext).
Proof.
  destruct (stored_extension_ends_the_name Demo.secret Demo.verify Demo.cast
              Demo.env Demo.bob_creates Demo.world
              (snd (app_post_post Demo.secret Demo.verify Demo.cast
                      Demo.env Demo.bob_creates Demo.world))
              (res_json
                 (JPost {| p_id := "64b7f0c2a1d3e4f5a6b7c8e3";
                           title := "Third"; summary := "3";
                           content := "<p>3</p>";
                           cover := "uploads/77aa88bb.jpg";
                           author := Demo.bob_id;
                           createdAt := 1700000500000 |}))
              {| up_originalname := "photo.final.jpg"; up_data := "JPG" |})
    as (p' & ext & _ & Hin & Hcover & Hext & Hname).
  - reflexivity.
  - vm_compute. reflexivity.
  - reflexivity.
  - exists p', ext. repeat split; assumption.
Defined.

Lemma login_then_profile_witness :
  fst (app_post_login Demo.secret false Demo.compareSync Demo.sign Demo.env
         Demo.bob_login Demo.world)
  = Ok {| status := 200;
          body := JIdentity Demo.bob_id "bob";
          set_cookie :=
            [ {| ck_name := "token"; ck_value := Demo.bob_token;
                 httpOnly := true; secure := false; sameSite := "none" |} ] |}
  /\ app_get_profile Demo.secret Demo.verify Demo.env Demo.bob_on_post1
       Demo.world
     = (Ok (res_json (JClaims {| c_username := "bob"; c_id := Demo.bob_id |})),
        Demo.world).
Proof.
  destruct (login_then_profile Demo.secret false Demo.compareSync Demo.sign
              Demo.verify Demo.env Demo.bob_login Demo.world Demo.bob)
    as [Hlogin Hprofile].
  - reflexivity.
  - reflexivity.
  - reflexivity.
  - reflexivity.
  - split.
    + rewrite Hlogin. reflexivity.
    + apply Hprofile. reflexivity.
Defined.

Lemma logout_cookie_is_no_session_witness :
  exists w2',
    app_handle Demo.salt Demo.secret false Demo.hashSync Demo.compareSync
      Demo.sign Demo.verify Demo.cast DELETE_post_id Demo.env
      Demo.after_logout Demo.world
    = (Ok (res_status_json 401 (JError "No token provided")), w2')
    /\ posts w2' = posts Demo.world /\ users w2' = users Demo.world.
Proof.
  destruct (logout_cookie_is_no_session Demo.salt Demo.secret false
              Demo.hashSync Demo.compareSync Demo.sign Demo.verify Demo.cast
              Demo.env Demo.blank Demo.world)
    as (c & Hrun & _ & Hnext).
  injection Hrun as <-.
  apply Hnext; [reflexivity|]. right. right. right. reflexivity.
Defined.

Lemma create_stores_the_upload_and_the_post_witness :
  exists p' w',
    app_post_post Demo.secret Demo.verify Demo.cast Demo.env Demo.bob_creates
      Demo.world
    = (Ok (res_json (JPost p')), w')
    /\ author p' = Demo.bob_id
    /\ createdAt p' = 1700000500000
    /\ disk w' !! cover p' = Some "JPG"
    /\ disk w' !! "uploads/77aa88bb" = None.
Proof.
  destruct (create_stores_the_upload_and_the_post Demo.secret Demo.verify
              Demo.cast Demo.env Demo.bob_creates Demo.world
              {| c_username := "bob"; c_id := Demo.bob_id |}
              {| up_originalname := "photo.final.jpg"; up_data := "JPG" |}
              Demo.bob_id)
    as (p' & w' & Hrun & _ & Hauthor & Htime & _ & _ & _ & _ & _ & Hfile
        & Htemp).
  - split; reflexivity.
  - reflexivity.
  - reflexivity.
  - simpl. intros [H|[H|[]]]; discriminate H.
  - exists p', w'. repeat split; assumption.
Defined.

Lemma refused_create_leaves_the_upload_witness :
  let w' := snd (app_post_post Demo.secret Demo.verify Demo.cast Demo.env
                   Demo.forged_create Demo.empty_world) in
  posts w' = [] /\ disk w' !! "uploads/77aa88bb" = Some "PNG".
Proof.
  intros w'.
  destruct (refused_create_leaves_the_upload Demo.secret Demo.verify Demo.cast
              Demo.env Demo.forged_create Demo.empty_world w'
              (res_status_json 403 (JError "Invalid token"))
              {| up_originalname := "spam.png"; up_data := "PNG" |})
    as (Hposts & _ & [[_ Hfile]|[Hst _]]).
  - reflexivity.
  - vm_compute. reflexivity.
  - discriminate.
  - split; [exact Hposts|exact Hfile].
  - discriminate Hst.
Defined.

Lemma refused_update_leaves_the_upload_witness :
  let w' := snd (app_put_post Demo.secret Demo.verify Demo.cast Demo.env
                   Demo.bob_uploads_on_post1 Demo.world) in
  posts w' = posts Demo.world
  /\ disk w' !! "uploads/77aa88bb.gif" = Some "GIF"
  /\ disk w' !! "uploads/77aa88bb" = None.
Proof.
  intros w'.
  destruct (refused_update_leaves_the_upload Demo.secret Demo.verify Demo.cast
              Demo.env Demo.bob_uploads_on_post1 Demo.world w'
              (res_status_json 403 (JStr "You are not the author"))
              {| up_originalname := "bob.gif"; up_data := "GIF" |}
              {| c_username := "bob"; c_id := Demo.bob_id |})
    as (Hposts & _ & Hfile & Htemp).
  - split; reflexivity.
  - reflexivity.
  - vm_compute. reflexivity.
  - discriminate.
  - split; [exact Hposts|]. split; [exact Hfile|exact Htemp].
Defined.

Lemma create_then_read_witness :
  let w' := snd (app_post_post Demo.secret Demo.verify Demo.cast Demo.env
                   Demo.bob_creates Demo.world) in
  exists p',
    title p' = "Third"
    /\ app_get_post_id Demo.cast Demo.env Demo.read_new_post w'
       = (Ok (res_json (JPopulated
                          {| doc := p';
                             author_doc := joined_author (users w') p' |})),
          w').
Proof.
  intros w'.
  destruct (create_then_read Demo.secret Demo.verify Demo.cast Demo.env
              Demo.bob_creates Demo.world w'
              (res_json
                 (JPost {| p_id := "64b7f0c2a1d3e4f5a6b7c8e3";
                           title := "Third"; summary := "3";
                           content := "<p>3</p>";
                           cover := "uploads/77aa88bb.jpg";
                           author := Demo.bob_id;
                           createdAt := 1700000500000 |})))
    as (p' & Hbody & Hread).
  - vm_compute. reflexivity.
  - reflexivity.
  - exists p'. injection Hbody as <-. split; [reflexivity|].
    apply Hread. reflexivity.
Defined.

Lemma created_post_heads_the_list_witness :
  let w' := snd (app_post_post Demo.secret Demo.verify Demo.cast Demo.env
                   Demo.bob_creates Demo.world) in
  exists p' rest,
    title p' = "Third"
    /\ app_get_post Demo.env Demo.blank w'
       = (Ok (res_json
                (JPosts ({| doc := p';
                            author_doc := joined_author (users w') p' |}
                         :: rest))), w').
Proof.
  intros w'.
  destruct (created_post_heads_the_list Demo.secret Demo.verify Demo.cast
              Demo.env Demo.bob_creates Demo.world w'
              (res_json
                 (JPost {| p_id := "64b7f0c2a1d3e4f5a6b7c8e3";
                           title := "Third"; summary := "3";
                           content := "<p>3</p>";
                           cover := "uploads/77aa88bb.jpg";
                           author := Demo.bob_id;
                           createdAt := 1700000500000 |})))
    as (p' & Hbody & Hlist).
  - simpl. intros q [<-|[<-|[]]]; reflexivity.
  - vm_compute. reflexivity.
  - reflexivity.
  - destruct (Hlist Demo.env Demo.blank) as (rest & Hrun).
    exists p', rest. injection Hbody as <-.
    split; [reflexivity|]. exact Hrun.
Defined.

Lemma deleted_post_is_gone_witness :
  let w' := snd (app_delete_post_id Demo.secret Demo.verify Demo.cast Demo.env
                   Demo.alice_edit_text Demo.world) in
  app_get_post_id Demo.cast Demo.env Demo.bob_on_post1 w'
  = (Ok (res_status_json 404 (JStr "Post not found")), w')
  /\ app_delete_post_id Demo.secret Demo.verify Demo.cast Demo.env
       Demo.alice_edit_text w'
     = (Ok (res_status_json 404 (JStr "Post not found")), w').
Proof.
  intros w'.
  destruct (deleted_post_is_gone Demo.secret Demo.verify Demo.cast Demo.env
              Demo.alice_edit_text Demo.world w' (res_json JSuccess))
    with (env2 := Demo.env) (req2 := Demo.bob_on_post1) as [Hread _].
  - vm_compute. reflexivity.
  - reflexivity.
  - reflexivity.
  - destruct (deleted_post_is_gone Demo.secret Demo.verify Demo.cast Demo.env
                Demo.alice_edit_text Demo.world w' (res_json JSuccess))
      with (env2 := Demo.env) (req2 := Demo.alice_edit_text) as [_ Hagain].
    + vm_compute. reflexivity.
    + reflexivity.
    + reflexivity.
    + split; [exact Hread|].
      apply (Hagain {| c_username := "alice"; c_id := Demo.alice_id |}).
      split; reflexivity.
Defined.


Lemma header_follows_the_profile_answer_witness :
  Header.nav
    (Header.onMount
       (res_json (JClaims {| c_username := "bob"; c_id := Demo.bob_id |})))
  = [Header.Link "/create" "Create new post"; Header.Anchor "Logout (bob)"]
  /\ exists r,
       app_get_profile Demo.secret Demo.verify Demo.env Demo.after_logout
         Demo.world = (Ok r, Demo.world)
       /\ Header.nav (Header.onMount r)
          = [Header.Link "/login" "Login"; Header.Link "/register" "Register"].
Proof.
  destruct (header_follows_the_profile_answer Demo.secret Demo.verify Demo.env
              Demo.bob_on_post1 Demo.world)
    as (r & Hrun & Hin & _).
  destruct (header_follows_the_profile_answer Demo.secret Demo.verify Demo.env
              Demo.after_logout Demo.world)
    as (r2 & Hrun2 & _ & Hout).
  split.
  - vm_compute in Hrun. injection Hrun as <-.
    apply (Hin {| c_username := "bob"; c_id := Demo.bob_id |});
      [split; reflexivity|reflexivity].
  - exists r2. split; [exact Hrun2|]. apply Hout. left. reflexivity.
Defined.
